(** * The NeXus data converter: schema walker, transmission reader, conversion routine

    A shallow embedding of
    - [nexusparser/tools/dataconverter/convert.py]
      ([generate_template_from_nxdl], [convert]) and
    - [nexusparser/tools/dataconverter/readers/transmission/reader.py]
      ([data_to_template], [parse_detector_line],
      [convert_detector_to_template], [read_detectors], [parse_asc],
      [parse_json], [parse_yml], [TransmissionReader.read]).

    Python dictionaries keyed by strings are finite maps ([gmap string _]);
    a dictionary that is iterated ([METADATA_MAP.items()]) is an association
    list in insertion order.  Exceptions are an explicit result type, text
    written with [print] is an explicit output list, and the template
    dictionary that [read] mutates in place is threaded as state, so that
    the writes done before an exception stay visible. *)

From Stdlib Require Import Ascii String QArith.
From stdpp Require Import gmap strings pretty list fin_maps sorting.

Local Open Scope string_scope.
Local Open Scope list_scope.

(** ** Python values, exceptions, results *)

(** Objects of the libraries the code only passes around: Python floats,
    numpy arrays, pandas data frames and loaded YAML documents. *)
Class Foreign := {
  pyfloat : Type;
  ndarray : Type;
  DataFrame : Type;
  YamlDoc : Type;
}.

#[warnings="-register-all"]
Inductive Value `{Foreign} : Type :=
  | VNone
  | VStr (s : string)
  | VInt (z : Z)
  | VFloat (x : pyfloat)
  | VArray (a : ndarray)
  | VList (l : list Value).

(** The template: [Dict[str, Any]]. *)
Abbreviation Template := (gmap string Value).

Inductive Exn : Type :=
  | IndexError
  | ValueError
  | AttributeError
  | PyException (msg : string)
  | ForeignError (what : string).

Inductive Result (A : Type) : Type :=
  | Ok (a : A)
  | Raise (e : Exn).
Arguments Ok {A} a.
Arguments Raise {A} e.

#[global] Instance Result_bind : MBind Result := fun A B k r =>
  match r with
  | Ok a => k a
  | Raise e => Raise e
  end.
#[global] Instance Result_ret : MRet Result := @Ok.

(** A [for] loop whose body may raise: the state after the last round, or
    the first exception. *)
Fixpoint for_each {A S} (body : S -> A -> Result S) (s : S) (l : list A) : Result S :=
  match l with
  | [] => Ok s
  | a :: l => s ← body s a; for_each body s l
  end.

(** [l[i]] on a Python list: negative indices count from the end, an index
    out of range raises [IndexError]. *)
Definition py_getitem {A} (l : list A) (i : Z) : Result A :=
  let n := Z.of_nat (length l) in
  let j := if (i <? 0)%Z then (i + n)%Z else i in
  if ((j <? 0) || (n <=? j))%Z then Raise IndexError
  else match l !! Z.to_nat j with
       | Some a => Ok a
       | None => Raise IndexError
       end.

(** [d.update(e)]: every entry of [e] is written into [d]. *)
Definition update `{Foreign} (d e : Template) : Template := e ∪ d.

(** ** convert.py: the schema tree walker *)

(** An [xml.etree.ElementTree.Element]: a tag, its attribute dictionary and
    its children in document order. *)
#[warnings="-register-all"]
Inductive Element : Type :=
  Node (tag : string) (attrib : gmap string string) (children : list Element).

Definition tag (e : Element) : string := let 'Node t _ _ := e in t.
Definition attrib (e : Element) : gmap string string := let 'Node _ a _ := e in a.
Definition children (e : Element) : list Element := let 'Node _ _ c := e in c.

(** The functions of the [helpers] module that the walker calls. *)
Class Helpers := {
  get_first_group : Element -> Element;
  remove_namespace_from_tag : string -> string;
  convert_nexus_to_caps : string -> string;
  convert_nexus_to_suggested_name : string -> string;
}.

Section Walker.
Context `{Foreign} `{Helpers}.

(** Lines 54-63: the path segment of a node. *)
Definition suffix_of (root : Element) : string :=
  let tag := remove_namespace_from_tag (tag root) in
  let suffix :=
    match attrib root !! "name" with
    | Some name => name
    | None =>
      match attrib root !! "type" with
      | Some type =>
        let nexus_class := convert_nexus_to_caps type in
        let hdf5name := "[" +:+ convert_nexus_to_suggested_name type +:+ "]" in
        nexus_class +:+ hdf5name
      | None => ""
      end
    end in
  if decide (tag = "attribute") then "@" +:+ suffix else suffix.

(** Line 72: the units are defined but not set to NX_UNITLESS. *)
Definition has_units (root : Element) : bool :=
  match attrib root !! "units" with
  | Some u => bool_decide (u ≠ "NX_UNITLESS")
  | None => false
  end.

(** Lines 49-76, for a call with [path] given. *)
Fixpoint walk (root : Element) (template : Template) (path : string) : Template :=
  let tag := remove_namespace_from_tag (tag root) in
  if decide (tag = "doc") then template
  else
    let path := path +:+ "/" +:+ suffix_of root in
    let template :=
      if bool_decide (tag = "field" ∨ tag = "attribute")
      then <[path := VNone]> template else template in
    let template :=
      if bool_decide (tag = "field") && has_units root
      then <[path +:+ "/@units" := VNone]> template else template in
    fold_left (fun template child => walk child template path)
              (children root) template.

(** Lines 43-76. *)
Definition generate_template_from_nxdl
    (root : Element) (template : Template) (path : option string) : Template :=
  match path with
  | None => walk (get_first_group root) template ""
  | Some path => walk root template path
  end.

End Walker.

(** ** Python string methods used by the reader *)

(** A Python [str] is a sequence of code points.  A [string] stands for a
    [str] whose code points are all below 256, one [ascii] per code point
    (the text of a file opened with [encoding="utf-8"] is decoded: a
    character is a code point, not a byte of its encoding).  Text with a
    code point above 255 has no counterpart among the [string]s. *)

(** The whitespace of [str.strip()] and [str.split()]: the code points
    Python calls whitespace, which below 256 are 9 to 13, 28 to 32, 133
    (next line, U+0085) and 160 (no-break space, U+00A0).  The others
    (U+1680, U+2000 to U+200A, U+2028, U+2029, U+202F, U+205F, U+3000) lie
    above 255. *)
Definition py_isspace (a : ascii) : bool :=
  let n := N_of_ascii a in
  ((9 <=? n) && (n <=? 13) || (28 <=? n) && (n <=? 32)
   || (n =? 133) || (n =? 160))%N.

(** [s.split()]: the maximal runs of non-whitespace characters. *)
Fixpoint split_go (s cur : string) : list string :=
  match s with
  | "" => if decide (cur = "") then [] else [cur]
  | String a s' =>
    if py_isspace a
    then ((if decide (cur = "") then [] else [cur]) ++ split_go s' "")
    else split_go s' (cur +:+ String a "")
  end.
Definition py_split (s : string) : list string := split_go s "".

(** [s.split(sep)] for a one-character separator: never empty. *)
Fixpoint split_on_go (sep : ascii) (s cur : string) : list string :=
  match s with
  | "" => [cur]
  | String a s' =>
    if decide (a = sep) then cur :: split_on_go sep s' ""
    else split_on_go sep s' (cur +:+ String a "")
  end.
Definition py_split_on (sep : ascii) (s : string) : list string :=
  split_on_go sep s "".

(** [s.strip()]. *)
Fixpoint py_lstrip (s : string) : string :=
  match s with
  | "" => ""
  | String a s' => if py_isspace a then py_lstrip s' else s
  end.
Definition py_strip (s : string) : string :=
  String.rev (py_lstrip (String.rev (py_lstrip s))).

(** ** reader.py *)

(** A value of [METADATA_MAP], as the three [isinstance]/[isfunction] tests
    of [parse_asc] see it: an [int], a [str], a Python function, or anything
    else (with the texts of [type(val)] and [val] for the warning). *)
Inductive Rule `{Foreign} : Type :=
  | RInt (i : Z)
  | RStr (s : string)
  | RFunction (f : list string -> Result Value)
  | ROther (type_repr val_repr : string).

(** The [metadata_parsers] module ([mpars]). *)
Class Mpars `{Foreign} := {
  read_start_date : list string -> Result Value;
  read_sample_attenuator : list string -> Result Value;
  read_ref_attenuator : list string -> Result Value;
  read_uv_monochromator_range : list string -> Result Value;
  read_visir_monochromator_range : list string -> Result Value;
  get_d2_range : list string -> Result Value;
  get_halogen_range : list string -> Result Value;
  MIN_WAVELENGTH : Value;
  MAX_WAVELENGTH : Value;
}.

(** The operating system and the libraries: [os.path], [open], [float],
    pandas, json, yaml and [readers.utils.flatten_and_replace]. *)
Class System `{Foreign} := {
  splitext : string -> string * string;
  path_exists : string -> bool;
  (** the lines [for line in fobj] yields for a file opened as text *)
  open_lines : string -> Result (list string);
  (** [float(s)] *)
  float : string -> Result pyfloat;
  (** [pd.read_csv(fobj, delim_whitespace=True, header=None, index_col=0)]
      on the lines not yet consumed *)
  read_csv : list string -> Result DataFrame;
  (** [data.index.values], [data.values], [data.values[:, 0]] *)
  index_values : DataFrame -> Value;
  values : DataFrame -> Value;
  values_col0 : DataFrame -> Result Value;
  (** [json.load] of the opened file *)
  json_load : string -> Result Template;
  (** [yaml.safe_load] of the opened file *)
  yaml_safe_load : string -> Result YamlDoc;
  flatten_and_replace :
    YamlDoc -> gmap string string -> gmap string string -> Result Template;
}.

(** What a call leaves behind: the lines it printed and its result. *)
Definition Printed (A : Type) : Type := list string * Result A.

(** The state of a call of [read]: the template object it mutates, the text
    printed so far, and the exception that ended it, if any.  After a normal
    return the value returned is [tmpl]. *)
Record Run `{Foreign} : Type := {
  tmpl : Template;
  printed : list string;
  raised : option Exn;
}.

(** A reader class, as [get_reader] returns it. *)
Record ReaderClass `{Foreign} : Type := {
  reader_supported_nxdls : list string;
  reader_read : Template -> list string -> Run;
}.

Section Reader.
Context `{Foreign} `{!Mpars} `{!System}.

(** Lines 37-54. *)
Definition METADATA_MAP : list (string * Rule) := [
  ("/ENTRY[entry]/SAMPLE[sample]/name", RInt 8);
  ("/ENTRY[entry]/start_time", RFunction read_start_date);
  ("/ENTRY[entry]/instrument/sample_attenuator/attenuator_transmission",
     RFunction read_sample_attenuator);
  ("/ENTRY[entry]/instrument/ref_attenuator/attenuator_transmission",
     RFunction read_ref_attenuator);
  ("/ENTRY[entry]/instrument/spectrometer/GRATING[grating]/wavelength_range",
     RFunction read_uv_monochromator_range);
  ("/ENTRY[entry]/instrument/spectrometer/GRATING[grating1]/wavelength_range",
     RFunction read_visir_monochromator_range);
  ("/ENTRY[entry]/instrument/SOURCE[source]/type", RStr "D2");
  ("/ENTRY[entry]/instrument/SOURCE[source]/wavelength_range",
     RFunction get_d2_range);
  ("/ENTRY[entry]/instrument/SOURCE[source1]/type", RStr "halogen");
  ("/ENTRY[entry]/instrument/SOURCE[source1]/wavelength_range",
     RFunction get_halogen_range)
].

(** Lines 57 and 60. *)
Definition CONVERT_DICT : gmap string string := ∅.
Definition REPLACE_NESTED : gmap string string := ∅.

(** Lines 63-83. *)
Definition data_to_template (data : DataFrame) : Result Template :=
  let template : Template := ∅ in
  let template := <["/ENTRY[entry]/data/@signal" := VStr "data"]> template in
  let template := <["/ENTRY[entry]/data/@axes" := VStr "wavelength"]> template in
  let template := <["/ENTRY[entry]/data/type" := VStr "transmission"]> template in
  let template := <["/ENTRY[entry]/data/@signal" := VStr "transmission"]> template in
  let template := <["/ENTRY[entry]/data/wavelength" := index_values data]> template in
  let template :=
    <["/ENTRY[entry]/instrument/spectrometer/wavelength" := index_values data]> template in
  let template := <["/ENTRY[entry]/data/wavelength/@units" := VStr "nm"]> template in
  col ← values_col0 data;
  let template := <["/ENTRY[entry]/data/transmission" := col]> template in
  let template := <["/ENTRY[entry]/instrument/measured_data" := values data]> template in
  Ok template.

(** Lines 86-97; [convert = None] is [Ok]. *)
Definition parse_detector_line {A} (line : string) (convert : string -> Result A)
    : Result (list A) :=
  mapM (fun s => convert (List.last (py_split_on "/" s) "")) (py_split line).

(** Lines 101-139. *)
Definition convert_detector_to_template
    (det_type slit : string) (time : pyfloat) (gain : option pyfloat)
    (det_idx : Z) (wavelength_range : list Value) : Result Template :=
  let path :=
    if decide (det_idx = 0%Z) then "/ENTRY[entry]/instrument/DETECTOR[detector]"
    else "/ENTRY[entry]/instrument/DETECTOR[detector" +:+ pretty det_idx +:+ "]" in
  let template : Template := ∅ in
  let template := <[path +:+ "/type" := VStr det_type]> template in
  let template := <[path +:+ "/response_time" := VFloat time]> template in
  let template :=
    match gain with
    | Some gain => <[path +:+ "/gain" := VFloat gain]> template
    | None => template
    end in
  template ←
    (if decide (slit = "servo")
     then Ok (<[path +:+ "/slit/type" := VStr "servo"]> template)
     else
       let template := <[path +:+ "/slit/type" := VStr "fixed"]> template in
       x_gap ← float slit;
       let template := <[path +:+ "/slit/x_gap" := VFloat x_gap]> template in
       Ok (<[path +:+ "/slit/x_gap/@units" := VStr "nm"]> template));
  Ok (<[path +:+ "/wavelength_range" := VList wavelength_range]> template).

(** Lines 161-171: one round of the loop over [zip(["PbS", "InGaAs"], [1, 0])]. *)
Definition read_detector
    (detector_slits : list string) (detector_times detector_gains : list pyfloat)
    (wavelength_ranges : list Value)
    (template : Template) (name_idx : string * Z) : Result Template :=
  let '(name, idx) := name_idx in
  slit ← py_getitem detector_slits idx;
  time ← py_getitem detector_times idx;
  gain ← py_getitem detector_gains idx;
  lo ← py_getitem wavelength_ranges (2 - idx);
  hi ← py_getitem wavelength_ranges (3 - idx);
  d ← convert_detector_to_template name slit time (Some gain) idx [lo; hi];
  Ok (update template d).

(** Lines 142-173. *)
Definition read_detectors (metadata : list string) : Result Template :=
  let template : Template := ∅ in
  line ← py_getitem metadata 31;
  detector_slits ← parse_detector_line line Ok;
  line ← py_getitem metadata 32;
  detector_times ← parse_detector_line line float;
  line ← py_getitem metadata 35;
  detector_gains ← parse_detector_line line float;
  line ← py_getitem metadata 43;
  detector_changes ← mapM float (py_split line);
  let wavelength_ranges :=
    ([MIN_WAVELENGTH] ++ (VFloat <$> reverse detector_changes)
                      ++ [MAX_WAVELENGTH]) in
  slit ← py_getitem detector_slits 2;
  time ← py_getitem detector_times 2;
  lo ← py_getitem wavelength_ranges 0;
  hi ← py_getitem wavelength_ranges 1;
  d ← convert_detector_to_template "PMT" slit time None 2 [lo; hi];
  let template := update template d in
  for_each (read_detector detector_slits detector_times detector_gains wavelength_ranges)
           template [("PbS", 1%Z); ("InGaAs", 0%Z)].

(** Lines 189-193: the stripped lines before the first line that is
    [#DATA] when stripped, and the lines left in the file after it. *)
Fixpoint read_metadata (lines : list string) : list string * list string :=
  match lines with
  | [] => ([], [])
  | line :: rest =>
    if decide (py_strip line = "#DATA") then ([], rest)
    else let '(metadata, data) := read_metadata rest in
         (py_strip line :: metadata, data)
  end.

(** Lines 199-211: the loop over the items of the metadata map, on the
    local template and the printed text. *)
Definition eval_rule (metadata : list string)
    (st : Template * list string) (item : string * Rule)
    : Result (Template * list string) :=
  let '(template, out) := st in
  let '(path, val) := item in
  match val with
  | RInt val =>
    line ← py_getitem metadata val;
    Ok (<[path := VStr line]> template, out)
  | RStr val => Ok (<[path := VStr val]> template, out)
  | RFunction val =>
    v ← val metadata;
    Ok (<[path := v]> template, out)
  | ROther type_repr val_repr =>
    Ok (template,
        (out ++ ["WARNING: Invalid type value " +:+ type_repr +:+ " of entry '"
                 +:+ path +:+ ":" +:+ val_repr +:+ "' in METADATA_MAP"]))
  end.

(** The same loop; when a round raises, the text printed by the rounds
    before it has been printed. *)
Fixpoint eval_rules (metadata : list string) (map : list (string * Rule))
    (template : Template) (out : list string) : list string * Result Template :=
  match map with
  | [] => (out, Ok template)
  | item :: map =>
    match eval_rule metadata (template, out) item with
    | Ok (template, out) => eval_rules metadata map template out
    | Raise e => (out, Raise e)
    end
  end.

(** Lines 176-216, for a metadata map [map]. *)
Definition parse_asc_with (map : list (string * Rule)) (file_path : string)
    : Printed Template :=
  let template : Template := ∅ in
  match open_lines file_path with
  | Raise e => ([], Raise e)
  | Ok lines =>
    let '(metadata, rest) := read_metadata lines in
    match read_csv rest with
    | Raise e => ([], Raise e)
    | Ok data =>
      let '(out, r) := eval_rules metadata map template [] in
      (out,
       template ← r;
       d ← read_detectors metadata;
       let template := update template d in
       d ← data_to_template data;
       Ok (update template d))
    end
  end.

Definition parse_asc : string -> Printed Template := parse_asc_with METADATA_MAP.

(** Lines 219-229. *)
Definition parse_json (file_path : string) : Printed Template :=
  ([], json_load file_path).

(** Lines 232-242. *)
Definition parse_yml (file_path : string) : Printed Template :=
  ([], doc ← yaml_safe_load file_path;
       flatten_and_replace doc CONVERT_DICT REPLACE_NESTED).

(** Line 250. *)
Definition supported_nxdls : list string := ["NXtransmission"].

(** Lines 259-264. *)
Definition extensions : gmap string (string -> Printed Template) :=
  <[".yaml" := parse_yml]> (<[".yml" := parse_yml]>
    (<[".json" := parse_json]> (<[".asc" := parse_asc]> ∅))).

(** [sorted(l, key=key)] on string keys: a stable sort, an element goes
    behind the elements whose key is not greater than its own. *)
Fixpoint insert_by {A} (key : A -> string) (l : list A) (x : A) : list A :=
  match l with
  | [] => [x]
  | y :: l' =>
    if String.ltb (key x) (key y) then x :: l
    else y :: insert_by key l' x
  end.
Definition sorted {A} (l : list A) (key : A -> string) : list A :=
  fold_left (insert_by key) l [].

(** [x] does not come after [y] in the order of the keys. *)
Definition key_le {A} (key : A -> string) (x y : A) : Prop :=
  String.ltb (key y) (key x) = false.

(** Lines 275-287: the loop over the sorted paths. *)
Fixpoint read_files (sorted_paths : list string)
    (template : Template) (out : list string) : Run :=
  match sorted_paths with
  | [] => {| tmpl := template; printed := out; raised := None |}
  | file_path :: sorted_paths =>
    let extension := (splitext file_path).2 in
    if decide (extensions !! extension = None) then
      read_files sorted_paths template
        (out ++ ["WARNING: File " +:+ file_path
                 +:+ " has an unsupported extension, ignoring file."])
    else if negb (path_exists file_path) then
      read_files sorted_paths template
        (out ++ ["WARNING: File " +:+ file_path
                 +:+ " does not exist, ignoring entry."])
    else
      let '(lines, r) :=
        default (fun _ => ([], Ok ∅)) (extensions !! extension) file_path in
      match r with
      | Ok d => read_files sorted_paths (update template d) (out ++ lines)
      | Raise e =>
        {| tmpl := template; printed := (out ++ lines); raised := Some e |}
      end
  end.

(** Lines 266-272. *)
Definition set_fixed_keys (template : Template) : Template :=
  let template := <["/@default" := VStr "entry"]> template in
  let template := <["/ENTRY[entry]/@default" := VStr "data"]> template in
  let template := <["/ENTRY[entry]/definition" := VStr "NXtransmission"]> template in
  let template := <["/ENTRY[entry]/definition/@version" := VStr "v2022.06"]> template in
  <["/ENTRY[entry]/definition/@url" :=
      VStr ("https://fairmat-experimental.github.io/nexus-fairmat-proposal/"
            +:+ "50433d9039b3f33299bab338998acb5335cd8951/index.html")]> template.

(** Lines 252-289: [TransmissionReader.read]. *)
Definition read (template : Template) (file_paths : list string) : Run :=
  let template := set_fixed_keys template in
  let sorted_paths := sorted file_paths (fun f => (splitext f).2) in
  read_files sorted_paths template [].

(** Line 292: [READER = TransmissionReader]. *)
Definition READER : ReaderClass := {|
  reader_supported_nxdls := supported_nxdls;
  reader_read := read;
|}.

End Reader.

(** ** convert.py: the conversion routine *)

(** [re.search("NX[a-z_]*(?=.nxdl.xml)", s)]: the lookahead wants any
    character but a newline, [nxdl], any character but a newline, [xml]. *)
Definition lookahead (s : string) : bool :=
  match s with
  | String c (String "n" (String "x" (String "d" (String "l"
      (String d (String "x" (String "m" (String "l" _)))))))) =>
    bool_decide (c ≠ "010"%char) && bool_decide (d ≠ "010"%char)
  | _ => false
  end.

Definition is_lower_or_underscore (a : ascii) : bool :=
  let n := N_of_ascii a in
  ((97 <=? n) && (n <=? 122) || (n =? 95))%N.

(** [[a-z_]*(?=...)] at the head of [s]: the longest run the lookahead
    accepts (the star is greedy and backtracks). *)
Fixpoint match_name_tail (s : string) : option string :=
  match s with
  | "" => None
  | String c s' =>
    if is_lower_or_underscore c then
      match match_name_tail s' with
      | Some m => Some (String c m)
      | None => if lookahead s then Some "" else None
      end
    else if lookahead s then Some "" else None
  end.

(** The leftmost match, [None] when there is none. *)
Fixpoint re_search_nxdl_name (s : string) : option string :=
  match s with
  | "" => None
  | String c s' =>
    match s with
    | String "N" (String "X" t) =>
      match match_name_tail t with
      | Some m => Some ("NX" +:+ m)
      | None => re_search_nxdl_name s'
      end
    | _ => re_search_nxdl_name s'
    end
  end.

(** [sep.join(l)]. *)
Fixpoint join (sep : string) (l : list string) : string :=
  match l with
  | [] => ""
  | [x] => x
  | x :: l => x +:+ sep +:+ join sep l
  end.

(** What [convert] does to the outside, in order. *)
Inductive Event `{Foreign} : Type :=
  | EParseNxdl (nxdl : string)
  | EInfo (msg : string)
  | EInfoTemplate (template : Template)
  | EGetReader (reader : string)
  | ERead (template : Template) (file_paths : list string)
  | EPrint (line : string)
  | EValidate
  | EWrite (nxdl_path output_path : string).

(** The collaborators of [convert]: the XML parser, the dynamic import of
    [get_reader], the validator and the writer. *)
Class Collaborators `{Foreign} := {
  ET_parse : string -> Result Element;
  get_reader : string -> Result ReaderClass;
  validate_data_dict : Template -> Template -> Element -> Result unit;
  Writer_write : Template -> string -> string -> Result unit;
}.

Section Convert.
Context `{Foreign} `{!Helpers} `{!Collaborators}.

(** Lines 132-161. *)
Definition convert (input_file : list string) (reader nxdl output : string)
    (generate_template : bool) : list Event * Result unit :=
  let ev := [EParseNxdl nxdl] in
  match ET_parse nxdl with
  | Raise e => (ev, Raise e)
  | Ok nxdl_root =>
    let template : Template := generate_template_from_nxdl nxdl_root ∅ None in
    if generate_template then
      let template := (fun _ => VStr "None") <$> template in
      (ev ++ [EInfoTemplate template], Ok ())
    else
      let bulletpoint := String "010" "• " in
      let print_input_files := join bulletpoint (" " :: input_file) in
      let ev := ev ++ [EInfo ("Using " +:+ reader
                  +:+ " reader to convert the given files: "
                  +:+ print_input_files +:+ " ")] in
      let ev := ev ++ [EGetReader reader] in
      match get_reader reader with
      | Raise e => (ev, Raise e)
      | Ok data_reader =>
        match re_search_nxdl_name nxdl with
        | None => (ev, Raise AttributeError)
        | Some nxdl_name =>
          if decide (nxdl_name ∉ reader_supported_nxdls data_reader) then
            (ev, Raise (PyException
               "The chosen NXDL isn't supported by the selected reader."))
          else
            let run := reader_read data_reader template input_file in
            let ev := ev ++ [ERead template input_file]
                         ++ (EPrint <$> printed run) in
            match raised run with
            | Some e => (ev, Raise e)
            | None =>
              let data := tmpl run in
              let ev := ev ++ [EValidate] in
              match validate_data_dict template data nxdl_root with
              | Raise e => (ev, Raise e)
              | Ok _ =>
                let ev := ev ++ [EWrite nxdl output] in
                match Writer_write data nxdl output with
                | Raise e => (ev, Raise e)
                | Ok _ =>
                  (ev ++ [EInfo ("The output file generated: " +:+ output)], Ok ())
                end
              end
            end
        end
      end
  end.

(** The run got as far as the reader: it called [read], printed what
    [read] printed, validated or wrote. *)
Definition touches_input (ev : Event) : bool :=
  match ev with
  | ERead _ _ | EPrint _ | EValidate | EWrite _ _ => true
  | EParseNxdl _ | EInfo _ | EInfoTemplate _ | EGetReader _ => false
  end.

(** The event is a call of the writer. *)
Definition is_write (ev : Event) : bool :=
  match ev with
  | EWrite _ _ => true
  | _ => false
  end.

(** Every run with a schema the selected reader does not support ends with
    an exception. *)
Definition unsupported_aborts : Prop :=
  forall input_file reader nxdl output generate_template data_reader nxdl_name,
    get_reader reader = Ok data_reader ->
    re_search_nxdl_name nxdl = Some nxdl_name ->
    nxdl_name ∉ reader_supported_nxdls data_reader ->
    exists e, (convert input_file reader nxdl output generate_template).2 = Raise e.

End Convert.

(** ** convert.py: the names of the readers *)

(** [sub in s]. *)
Fixpoint py_in (sub s : string) : bool :=
  String.prefix sub s
  || match s with
     | "" => false
     | String _ s' => py_in sub s'
     end.

(** [s.rfind(sub)]: the highest index at which [sub] starts in [s]. *)
Fixpoint rfind (sub s : string) : option nat :=
  match s with
  | "" => if String.prefix sub "" then Some 0%nat else None
  | String _ s' =>
    match rfind sub s' with
    | Some i => Some (S i)
    | None => if String.prefix sub s then Some 0%nat else None
    end
  end.

(** [s.rindex(sub)]: as [rfind], but [ValueError] when [sub] is not there. *)
Definition py_rindex (s sub : string) : Result nat :=
  match rfind sub s with
  | Some i => Ok i
  | None => Raise ValueError
  end.

(** [s[i:j]] for [i] and [j] within the string; empty when [j <= i]. *)
Definition py_slice (s : string) (i j : nat) : string :=
  String.substring i (j - i) s.

(** Lines 94-98: one round of the loop over the files; [sep] is [os.sep]. *)
Definition add_reader_name (sep : string) (all_readers : list string)
    (file : string) : Result (list string) :=
  if negb (py_in (sep +:+ "base" +:+ sep) file) then
    i ← py_rindex file ("readers" +:+ sep);
    let index_of_readers_folder_name := (i + String.length ("readers" +:+ sep))%nat in
    index_of_last_path_sep ← py_rindex file sep;
    Ok (all_readers
        ++ [py_slice file index_of_readers_folder_name index_of_last_path_sep])
  else Ok all_readers.

(** Lines 89-99, for the files that [glob.glob] found. *)
Definition get_names_of_all_readers (sep : string) (files : list string)
    : Result (list string) :=
  for_each (add_reader_name sep) [] files.

(** The entry point of the reader [name] in the readers directory below
    [dir] (which ends with the separator, or is empty). *)
Definition reader_file (dir_name : string * string) : string :=
  dir_name.1 +:+ "readers/" +:+ dir_name.2 +:+ "/reader.py".

(** [s.endswith(suffix)]. *)
Definition py_endswith (s suffix : string) : bool :=
  let n := String.length s in
  let m := String.length suffix in
  (m <=? n)%nat && bool_decide (String.substring (n - m) m s = suffix).

(** A directory name the loop gets right: it has no separator in it and
    does not end with [readers]. *)
Definition plain_reader_name (name : string) : Prop :=
  py_in "/" name = false /\ py_endswith name "readers" = false.

(** Every character of the string is one of [[a-z_]]. *)
Fixpoint name_chars (m : string) : bool :=
  match m with
  | "" => true
  | String c m => is_lower_or_underscore c && name_chars m
  end.

(** ** The naming rule in the words of the specification *)

Section Naming.
Context `{Helpers}.

Definition tag_name (n : Element) : string := remove_namespace_from_tag (tag n).

(** [chain_to root l n]: [l] lists the nodes from [root] down to [n],
    each one a child of the one before. *)
Inductive chain_to : Element -> list Element -> Element -> Prop :=
  | chain_here root : chain_to root [root] root
  | chain_child root c l n :
      c ∈ children root -> chain_to c l n -> chain_to root (root :: l) n.

(** Neither the node nor one of its ancestors is a [doc] node. *)
Definition no_doc (l : list Element) : Prop :=
  Forall (fun a => tag_name a ≠ "doc") l.

(** The slash-delimited concatenation of the segments of a chain. *)
Fixpoint join_segments (l : list Element) : string :=
  match l with
  | [] => ""
  | a :: l => "/" +:+ suffix_of a +:+ join_segments l
  end.

(** [k] is the path of a [field] or [attribute] node below [root] that is
    not under a [doc] ancestor. *)
Definition value_key (root : Element) (prefix k : string) : Prop :=
  exists l n, chain_to root l n /\ no_doc l /\
    (tag_name n = "field" \/ tag_name n = "attribute") /\
    k = prefix +:+ join_segments l.

(** [k] is the [@units] sibling of a [field] node below [root], not under
    a [doc] ancestor, whose units are given and not [NX_UNITLESS]. *)
Definition units_key (root : Element) (prefix k : string) : Prop :=
  exists l n, chain_to root l n /\ no_doc l /\
    tag_name n = "field" /\ has_units n = true /\
    k = prefix +:+ join_segments l +:+ "/@units".

(** The writes of [walk], in order. *)
Fixpoint written (root : Element) (path : string) : list string :=
  if decide (tag_name root = "doc") then []
  else
    let path := path +:+ "/" +:+ suffix_of root in
    (if bool_decide (tag_name root = "field" \/ tag_name root = "attribute")
     then [path] else [])
    ++ (if bool_decide (tag_name root = "field") && has_units root
        then [path +:+ "/@units"] else [])
    ++ concat (map (fun child => written child path) (children root)).

(** The paths of the [field] and [attribute] nodes alone. *)
Fixpoint value_paths (root : Element) (path : string) : list string :=
  if decide (tag_name root = "doc") then []
  else
    let path := path +:+ "/" +:+ suffix_of root in
    (if bool_decide (tag_name root = "field" \/ tag_name root = "attribute")
     then [path] else [])
    ++ concat (map (fun child => value_paths child path) (children root)).

(** The keys a walk adds below the children of [root], whose own path is
    [path]. *)
Definition key_below (root : Element) (path k : string) : Prop :=
  exists c, c ∈ children root /\ (value_key c path k \/ units_key c path k).

End Naming.

(** Writing [None] at each path of a list, in order. *)
Definition write_all `{Foreign} (ks : list string) (template : Template)
  : Template :=
  fold_left (fun template k => <[k := VNone]> template) ks template.

(** The reading of the key set that counts the value keys only: a walk from
    the empty template has a key exactly for each [field] or [attribute]
    node that is not under a [doc] node. *)
Definition value_keys_only `{Foreign} `{!Helpers} (root : Element) : Prop :=
  forall k, k ∈ dom (generate_template_from_nxdl root ∅ None)
            <-> value_key (get_first_group root) "" k.

(** The setting a token stands for: what follows its last slash. *)
Definition setting_of (token : string) : string :=
  List.last (py_split_on "/" token) "".

(** ** The reader in the words of the specification *)

Section ReaderWords.
Context `{Foreign} `{!Mpars} `{!System}.

(** The five keys [read] sets before it looks at a file. *)
Definition fixed_keys : list (string * Value) := [
  ("/@default", VStr "entry");
  ("/ENTRY[entry]/@default", VStr "data");
  ("/ENTRY[entry]/definition", VStr "NXtransmission");
  ("/ENTRY[entry]/definition/@version", VStr "v2022.06");
  ("/ENTRY[entry]/definition/@url",
     VStr "https://fairmat-experimental.github.io/nexus-fairmat-proposal/50433d9039b3f33299bab338998acb5335cd8951/index.html")
].

(** The recognized extensions. *)
Definition recognized : list string := [".asc"; ".json"; ".yml"; ".yaml"].

(** The file is not read: its extension is not recognized, or it does not
    exist. *)
Definition skipped (file_path : string) : Prop :=
  (splitext file_path).2 ∉ recognized \/ path_exists file_path = false.

#[global] Instance skipped_dec file_path : Decision (skipped file_path).
Proof. unfold skipped. apply _. Defined.

(** The warning printed for a skipped file. *)
Definition skip_warning (file_path : string) : string :=
  if decide ((splitext file_path).2 ∈ recognized)
  then "WARNING: File " +:+ file_path +:+ " does not exist, ignoring entry."
  else "WARNING: File " +:+ file_path
       +:+ " has an unsupported extension, ignoring file.".

(** The file is read and its parser returns the dictionary [d]. *)
Definition parsed (file_path : string) (d : Template) : Prop :=
  ~ skipped file_path /\
  exists lines,
    default (fun _ => ([], Ok ∅)) (extensions !! (splitext file_path).2) file_path
    = (lines, Ok d).

(** Argument order does not matter at all: permuted file lists give the
    same run. *)
Definition order_independent : Prop :=
  forall (template : Template) (l1 l2 : list string),
    l1 ≡ₚ l2 -> read template l1 = read template l2.

(** The two lists name the files of every extension in the same order. *)
Definition same_order_per_extension (l1 l2 : list string) : Prop :=
  forall e, filter (fun f => (splitext f).2 = e) l1
            = filter (fun f => (splitext f).2 = e) l2.

(** The rule can be evaluated on the preamble: the index is in range, the
    function returns. *)
Definition rule_ok (metadata : list string) (item : string * Rule) : Prop :=
  match item.2 with
  | RInt i => exists line, py_getitem metadata i = Ok line
  | RFunction f => exists v, f metadata = Ok v
  | RStr _ | ROther _ _ => True
  end.

(** What a rule leaves at its path, and in the printed text. *)
Definition rule_yields (metadata : list string)
    (before after : Template) (out : list string) (item : string * Rule) : Prop :=
  let '(path, val) := item in
  match val with
  | RInt i => exists line, py_getitem metadata i = Ok line /\
                           after !! path = Some (VStr line)
  | RStr s => after !! path = Some (VStr s)
  | RFunction f => exists v, f metadata = Ok v /\ after !! path = Some v
  | ROther type_repr val_repr =>
    after !! path = before !! path /\
    ("WARNING: Invalid type value " +:+ type_repr +:+ " of entry '"
       +:+ path +:+ ":" +:+ val_repr +:+ "' in METADATA_MAP") ∈ out
  end.

(** The group of a detector: the detector with index 0 has no number. *)
Definition detector_path (det_idx : Z) : string :=
  if decide (det_idx = 0%Z) then "/ENTRY[entry]/instrument/DETECTOR[detector]"
  else "/ENTRY[entry]/instrument/DETECTOR[detector" +:+ pretty det_idx +:+ "]".

(** The keys [convert_detector_to_template] may write below a path. *)
Definition detector_keys (path : string) : list string := [
  path +:+ "/type"; path +:+ "/response_time"; path +:+ "/gain";
  path +:+ "/slit/type"; path +:+ "/slit/x_gap"; path +:+ "/slit/x_gap/@units";
  path +:+ "/wavelength_range"
].

(** The keys of all three detectors. *)
Definition all_detector_keys : list string :=
  detector_keys (detector_path 2) ++ detector_keys (detector_path 1)
  ++ detector_keys (detector_path 0).

(** The keys [data_to_template] writes. *)
Definition data_keys : list string := [
  "/ENTRY[entry]/data/@signal"; "/ENTRY[entry]/data/@axes";
  "/ENTRY[entry]/data/type"; "/ENTRY[entry]/data/wavelength";
  "/ENTRY[entry]/instrument/spectrometer/wavelength";
  "/ENTRY[entry]/data/wavelength/@units"; "/ENTRY[entry]/data/transmission";
  "/ENTRY[entry]/instrument/measured_data"
].

(** The template has an entry for a detector of the given type, with its
    response time, slit and wavelength range. *)
Definition has_detector (template : Template) (path det_type : string) : Prop :=
  template !! (path +:+ "/type") = Some (VStr det_type) /\
  is_Some (template !! (path +:+ "/response_time")) /\
  is_Some (template !! (path +:+ "/slit/type")) /\
  is_Some (template !! (path +:+ "/wavelength_range")).

(** The slit of a detector is the servo or a number. *)
Definition slit_ok (slit : string) : Prop :=
  slit = "servo" \/ exists x, float slit = Ok x.

(** The preamble of an [.asc] file in the expected format: at least 44
    lines; every rule of the metadata map can be evaluated; line 31 gives at
    least three slits, line 32 at least three response times, line 35 at
    least two gains and line 43 at least two wavelengths of detector
    change, all numbers but for a slit, which may be the servo. *)
Definition expected_format (metadata : list string) : Prop :=
  (44 <= length metadata)%nat /\
  Forall (rule_ok metadata) METADATA_MAP /\
  exists l31 l32 l35 l43 slits times gains changes,
    metadata !! 31%nat = Some l31 /\ parse_detector_line l31 Ok = Ok slits /\
    metadata !! 32%nat = Some l32 /\ parse_detector_line l32 float = Ok times /\
    metadata !! 35%nat = Some l35 /\ parse_detector_line l35 float = Ok gains /\
    metadata !! 43%nat = Some l43 /\ mapM float (py_split l43) = Ok changes /\
    (3 <= length slits)%nat /\ (3 <= length times)%nat /\
    (2 <= length gains)%nat /\ (2 <= length changes)%nat /\
    Forall slit_ok (take 3 slits).

End ReaderWords.

(** ** Concrete collaborators for the examples *)

(** Modelled from the spec: [helpers.remove_namespace_from_tag] is not among
    the sources; the tag without its [{namespace}] prefix. *)
Definition strip_namespace (tag : string) : string :=
  List.last (py_split_on "}" tag) "".

(** Modelled from the spec: [helpers.get_first_group] is not among the
    sources; "descends into the tree's first child group (skipping a root
    wrapper)". *)
Definition first_group (root : Element) : Element :=
  match List.filter (fun c => bool_decide (strip_namespace (tag c) = "group"))
                    (children root) with
  | g :: _ => g
  | [] => root
  end.

Definition upper (a : ascii) : ascii :=
  let n := N_of_ascii a in
  if ((97 <=? n) && (n <=? 122))%N then ascii_of_N (n - 32) else a.

Fixpoint string_map (f : ascii -> ascii) (s : string) : string :=
  match s with
  | "" => ""
  | String a s => String (f a) (string_map f s)
  end.

(** Modelled from the spec: [helpers.convert_nexus_to_caps] and
    [helpers.convert_nexus_to_suggested_name] are not among the sources; the
    class name without its [NX] prefix, in upper case and as it is
    (type [NXentry] gives the segment [ENTRY[entry]]). *)
Definition nexus_to_caps (type : string) : string :=
  string_map upper (String.substring 2 (String.length type - 2) type).
Definition nexus_to_suggested_name (type : string) : string :=
  String.substring 2 (String.length type - 2) type.

Definition nxdl_helpers : Helpers := {|
  get_first_group := first_group;
  remove_namespace_from_tag := strip_namespace;
  convert_nexus_to_caps := nexus_to_caps;
  convert_nexus_to_suggested_name := nexus_to_suggested_name;
|}.

(** [posixpath.splitext]: the extension starts at the last dot of the last
    path component, unless only dots come before it there. *)
Fixpoint rsplit_at (c : ascii) (s : string) : option (string * string) :=
  match s with
  | "" => None
  | String a s' =>
    match rsplit_at c s' with
    | Some (pre, suf) => Some (String a pre, suf)
    | None => if decide (a = c) then Some ("", s) else None
    end
  end.

Fixpoint only_dots (s : string) : bool :=
  match s with
  | "" => true
  | String a s => bool_decide (a = "."%char) && only_dots s
  end.

Definition posix_splitext (p : string) : string * string :=
  let '(dir, base) :=
    match rsplit_at "/" p with
    | Some (d, String _ b) => (d +:+ "/", b)
    | _ => ("", p)
    end in
  match rsplit_at "." base with
  | Some (stem, ext) => if only_dots stem then (p, "") else (dir +:+ stem, ext)
  | None => (p, "")
  end.

(** Stand-ins for the foreign objects in the examples: a float is the
    rational its decimal text denotes, an array is a list of rows, a data
    frame is a list of rows with their index, a YAML document is flat. *)
Definition example_foreign : Foreign := {|
  pyfloat := Q;
  ndarray := list (list Q);
  DataFrame := list (Q * list Q);
  YamlDoc := list (string * string);
|}.

Definition digit_of (a : ascii) : option Z :=
  let n := N_of_ascii a in
  if ((48 <=? n) && (n <=? 57))%N then Some (Z.of_N (n - 48)) else None.

Fixpoint digits_go (s : string) (acc : Z) : option Z :=
  match s with
  | "" => Some acc
  | String a s => d ← digit_of a; digits_go s (10 * acc + d)%Z
  end.

(** Decimal texts [digits] and [digits.digits], with an optional sign. *)
Definition decimal (s : string) : Result Q :=
  let '(sign, body) :=
    match py_strip s with
    | String "-" b => ((-1)%Z, b)
    | String "+" b => (1%Z, b)
    | b => (1%Z, b)
    end in
  match py_split_on "." body with
  | [ip] =>
    if decide (ip = "") then Raise ValueError
    else match digits_go ip 0 with
         | Some n => Ok (inject_Z (sign * n))
         | None => Raise ValueError
         end
  | [ip; fp] =>
    if decide (ip = "" /\ fp = "") then Raise ValueError
    else match digits_go (ip +:+ fp) 0 with
         | Some n => Ok (Qmake (sign * n) (Z.to_pos (10 ^ Z.of_nat (String.length fp))))
         | None => Raise ValueError
         end
  | _ => Raise ValueError
  end.

Section Examples.
Existing Instance example_foreign.

Definition example_read_csv (lines : list string) : Result DataFrame :=
  if decide (lines = []) then Raise (ForeignError "EmptyDataError")
  else mapM (fun line =>
         match py_split line with
         | [] => Raise (ForeignError "ParserError")
         | i :: vs => i ← decimal i; vs ← mapM decimal vs; Ok (i, vs)
         end) lines.

Definition example_column (data : DataFrame) : Result Value :=
  col ← mapM (fun row => match row.2 with
                         | v :: _ => Ok (VFloat v)
                         | [] => Raise IndexError
                         end) data;
  Ok (VList col).

(** A file system for the examples: the text files by path, and what the
    JSON and YAML loaders give for a path. *)
Definition example_system (texts : gmap string (list string))
    (jsons : gmap string Template) : System := {|
  splitext := posix_splitext;
  path_exists p := bool_decide (is_Some (texts !! p))
                   || bool_decide (is_Some (jsons !! p));
  open_lines p := match texts !! p with
                  | Some lines => Ok lines
                  | None => Raise (ForeignError "FileNotFoundError")
                  end;
  float := decimal;
  read_csv := example_read_csv;
  index_values data := VList ((fun row => VFloat row.1) <$> data);
  values data := VArray ((fun row => row.2) <$> data);
  values_col0 := example_column;
  json_load p := match jsons !! p with
                 | Some t => Ok t
                 | None => Raise (ForeignError "JSONDecodeError")
                 end;
  yaml_safe_load p := match jsons !! p with
                      | Some t => Ok []
                      | None => Raise (ForeignError "YAMLError")
                      end;
  flatten_and_replace doc _ _ := Ok ∅;
|}.

(** Stand-ins for the metadata parsers: each reads one fixed line. *)
Definition line_at (i : Z) (metadata : list string) : Result Value :=
  line ← py_getitem metadata i; Ok (VStr line).

Definition example_mpars : Mpars := {|
  read_start_date := line_at 3;
  read_sample_attenuator := line_at 47;
  read_ref_attenuator := line_at 47;
  read_uv_monochromator_range := line_at 41;
  read_visir_monochromator_range := line_at 41;
  get_d2_range := line_at 42;
  get_halogen_range := line_at 42;
  MIN_WAVELENGTH := VFloat (inject_Z 190);
  MAX_WAVELENGTH := VFloat (inject_Z 3350);
|}.

(** A schema: a [definition] wrapper with its documentation and one entry
    group. *)
Definition example_nxdl : Element :=
  Node "definition" {["name" := "NXtransmission"]} [
    Node "doc" ∅ [Node "field" {["name" := "hidden"]} []];
    Node "group" {["type" := "NXentry"]} [
      Node "field" {["name" := "wavelength"; "units" := "nm"]} [
        Node "attribute" {["name" := "long_name"]} []];
      Node "field" {["name" := "definition"; "units" := "NX_UNITLESS"]} [];
      Node "group" {["name" := "data"]} [
        Node "doc" ∅ [];
        Node "field" {["type" := "NX_FLOAT"]} []]]].

(** A schema with one field that has units. *)
Definition units_nxdl : Element :=
  Node "definition" ∅ [
    Node "group" {["type" := "NXentry"]} [
      Node "field" {["name" := "x"; "units" := "nm"]} []]].

(** Collaborators for the examples: every schema file parses to
    [example_nxdl], the only reader is the transmission reader, and the
    validator and the writer succeed. *)
Definition example_collaborators (texts : gmap string (list string))
    (jsons : gmap string Template) : Collaborators := {|
  ET_parse _ := Ok example_nxdl;
  get_reader name :=
    if decide (name = "transmission")
    then Ok (@READER _ example_mpars (example_system texts jsons))
    else Raise (ForeignError "FileNotFoundError");
  validate_data_dict _ _ _ := Ok ();
  Writer_write _ _ _ := Ok ();
|}.

(** Two JSON files that give different values to one path. *)
Definition conflicting_jsons : gmap string Template :=
  {[ "a.json" := {[ "/ENTRY[entry]/title" := VStr "a" ]};
     "b.json" := {[ "/ENTRY[entry]/title" := VStr "b" ]} ]}.

(** The preamble of an [.asc] file for the examples, 48 lines. *)
Definition example_preamble : list string := [
  "PE UV       SUBTECH     SPECTRUM    ASCII       PEDS        4.00";
  "-1";
  "sample.asc";
  "22/06/01";
  "12:00:00.00";
  "22/06/01";
  "12:05:00.00";
  "analyst";
  "  thin film on glass  ";
  "";
  "1";
  "Lambda 1050";
  "serial 1050L";
  "PerkinElmer UV WinLab 6.4";
  "";
  "";
  "0";
  "1";
  "0";
  "0";
  "3350";
  "-1";
  "2";
  "240";
  "8";
  "UV/VIS/NIR";
  "0";
  "0";
  "0";
  "0";
  "860.8";
  "3350/servo 1680/servo 860.8/2.00";
  "3350/0.2 1680/0.2 860.8/0.2";
  "";
  "";
  "3350/5.00 1680/2.50";
  "";
  "";
  "";
  "";
  "DoubleDePol,CommonBeamDepol";
  "319.2";
  "S:100 R:100";
  "1680.4 860.8";
  "";
  "%T";
  "";
  "100"
].

(** The lines of the file, each with its end of line. *)
Definition example_asc : list string :=
  ((fun line => line +:+ String "010" "")
     <$> example_preamble ++ ["#DATA"; "800.0 12.5"; "799.0 12.25"]).

Definition example_texts : gmap string (list string) :=
  {[ "data.asc" := example_asc ]}.

Definition example_metadata : list string := (read_metadata example_asc).1.
Definition example_rest : list string := (read_metadata example_asc).2.
Definition example_data : DataFrame := [
  (Qmake 8000 10, [Qmake 125 10]); (Qmake 7990 10, [Qmake 1225 100])
].
Definition example_col : Value :=
  VList [VFloat (Qmake 125 10); VFloat (Qmake 1225 100)].

End Examples.

(** * Properties *)

(** ** Strings and lists *)

Lemma app_cons (a : ascii) (s t : string) : String a s +:+ t = String a (s +:+ t).
Proof. reflexivity. Qed.

Lemma app_assoc_s (s t u : string) : (s +:+ t) +:+ u = s +:+ (t +:+ u).
Proof. induction s as [|a s IH]; [done|]. by rewrite !app_cons, IH. Qed.

Lemma app_empty_r (s : string) : s +:+ "" = s.
Proof. induction s as [|a s IH]; [done|]. by rewrite app_cons, IH. Qed.

Lemma elem_of_concat_map {A B} (f : A -> list B) (l : list A) (y : B) :
  y ∈ concat (map f l) <-> exists c, c ∈ l /\ y ∈ f c.
Proof.
  rewrite list_elem_of_In, in_concat. split.
  - intros (ys & (c & <- & Hc)%in_map_iff & Hy).
    exists c. by rewrite !list_elem_of_In.
  - intros (c & Hc & Hy). exists (f c). rewrite in_map_iff, <- !list_elem_of_In.
    split; [|done]. exists c. split; [done|]. by apply list_elem_of_In.
Qed.

(** The no-break space (U+00A0) and the next-line character (U+0085) are
    whitespace to [strip] and [split], as they are to Python. *)
Lemma py_strip_no_break_space :
  py_strip (String "160" "#DATA" +:+ String "133" "") = "#DATA".
Proof. reflexivity. Qed.

Lemma py_split_no_break_space :
  py_split ("1680.4" +:+ String "160" "860.8") = ["1680.4"; "860.8"].
Proof. reflexivity. Qed.

(** Induction over a tree with the hypothesis for every child. *)
Lemma Element_forall_ind (P : Element -> Prop) :
  (forall t a cs, Forall P cs -> P (Node t a cs)) -> forall e, P e.
Proof.
  intros step. fix IH 1. intros [t a cs]. apply step.
  induction cs as [|c cs IHcs]; constructor; [apply IH | apply IHcs].
Qed.

(** Tactics for keys: two keys that differ after a common prefix, a key
    that is in a list, a lookup below writes at other keys, a key that is
    not in a closed list. *)
Ltac key_ne :=
  let Heq := fresh in
  intros Heq; apply (inj (String.app _)) in Heq; discriminate.

Ltac in_list :=
  repeat first [apply list_elem_of_here | apply list_elem_of_further].

Ltac lookup_key :=
  repeat (rewrite lookup_insert_ne by key_ne); rewrite lookup_insert_eq.

Ltac not_key H := by apply (bool_decide_pack _) in H; vm_compute in H.

(** ** The schema tree walker *)

Section WalkerFacts.
Context `{Foreign} `{!Helpers}.

Lemma write_all_app ks1 ks2 template :
  write_all (ks1 ++ ks2) template = write_all ks2 (write_all ks1 template).
Proof. apply fold_left_app. Qed.

Lemma write_all_lookup ks template k :
  write_all ks template !! k =
    if decide (k ∈ ks) then Some VNone else template !! k.
Proof.
  revert template. induction ks as [|k' ks IH]; intros template; simpl.
  - destruct (decide (k ∈ [])) as [Hin|_]; [by apply elem_of_nil in Hin | done].
  - rewrite IH. destruct (decide (k ∈ ks)) as [Hin|Hnin].
    + rewrite decide_True; [done | by right].
    + destruct (decide (k' = k)) as [->|Hne].
      * rewrite lookup_insert_eq, decide_True; [done | by left].
      * rewrite lookup_insert_ne by done.
        rewrite decide_False; [done|]. by intros [?|?]%elem_of_cons.
Qed.

Lemma walk_children_written cs path template :
  Forall (fun c => forall template path,
            walk c template path = write_all (written c path) template) cs ->
  fold_left (fun template child => walk child template path) cs template
  = write_all (concat (map (fun child => written child path) cs)) template.
Proof.
  intros Hcs. revert template.
  induction Hcs as [|c cs Hc _ IH]; intros template; simpl; [done|].
  by rewrite write_all_app, <- Hc, IH.
Qed.

(** [walk] performs exactly the writes listed by [written]. *)
Lemma walk_written root template path :
  walk root template path = write_all (written root path) template.
Proof.
  revert template path.
  induction root as [t a cs IH] using Element_forall_ind; intros template path.
  simpl. unfold tag_name; simpl.
  destruct (decide (remove_namespace_from_tag t = "doc")); [done|].
  rewrite (walk_children_written cs _ _ IH), !write_all_app.
  f_equal.
  by destruct (bool_decide (remove_namespace_from_tag t = "field")
               && has_units (Node t a cs)),
              (bool_decide (remove_namespace_from_tag t = "field" ∨
                            remove_namespace_from_tag t = "attribute")).
Qed.

(** The path of a node one level down. *)
Lemma join_segments_cons prefix root l :
  (prefix +:+ "/" +:+ suffix_of root) +:+ join_segments l
  = prefix +:+ join_segments (root :: l).
Proof. simpl. by rewrite !app_assoc_s. Qed.

Lemma join_segments_one prefix root :
  prefix +:+ join_segments [root] = prefix +:+ "/" +:+ suffix_of root.
Proof. simpl. by rewrite app_empty_r. Qed.

(** A key of the tree is a key of the root or a key of one of its
    children, and the root is not a [doc] node. *)
Lemma value_key_unfold root prefix k :
  value_key root prefix k <->
  tag_name root ≠ "doc" /\
  ((tag_name root = "field" \/ tag_name root = "attribute") /\
     k = prefix +:+ "/" +:+ suffix_of root
   \/ exists c, c ∈ children root /\
        value_key c (prefix +:+ "/" +:+ suffix_of root) k).
Proof.
  split.
  - intros (l & n & Hchain & Hdoc & Htag & ->).
    inversion Hchain as [r|r c l' n' Hc Hchain']; subst.
    + apply Forall_cons in Hdoc as [Hroot _]. split; [done|]. left.
      by rewrite join_segments_one.
    + apply Forall_cons in Hdoc as [Hroot Hdoc]. split; [done|]. right.
      exists c. split; [done|]. exists l', n.
      by rewrite join_segments_cons.
  - intros [Hroot [[Htag ->]|(c & Hc & l & n & Hchain & Hdoc & Htag & ->)]].
    + exists [root], root. rewrite join_segments_one.
      repeat split; [constructor | by repeat constructor | done].
    + exists (root :: l), n. rewrite join_segments_cons.
      repeat split; [by econstructor | by constructor | done].
Qed.

Lemma units_key_unfold root prefix k :
  units_key root prefix k <->
  tag_name root ≠ "doc" /\
  ((tag_name root = "field" /\ has_units root = true) /\
     k = (prefix +:+ "/" +:+ suffix_of root) +:+ "/@units"
   \/ exists c, c ∈ children root /\
        units_key c (prefix +:+ "/" +:+ suffix_of root) k).
Proof.
  split.
  - intros (l & n & Hchain & Hdoc & Htag & Hu & ->).
    inversion Hchain as [r|r c l' n' Hc Hchain']; subst.
    + apply Forall_cons in Hdoc as [Hroot _]. split; [done|]. left.
      by rewrite <- !app_assoc_s, join_segments_one, !app_assoc_s.
    + apply Forall_cons in Hdoc as [Hroot Hdoc]. split; [done|]. right.
      exists c. split; [done|]. exists l', n.
      by rewrite <- (app_assoc_s prefix), <- join_segments_cons, !app_assoc_s.
  - intros [Hroot [[[Htag Hu] ->]
                  |(c & Hc & l & n & Hchain & Hdoc & Htag & Hu & ->)]].
    + exists [root], root.
      rewrite <- (app_assoc_s prefix (join_segments _)), join_segments_one.
      repeat split; [constructor | by repeat constructor | done..].
    + exists (root :: l), n.
      rewrite <- (app_assoc_s prefix (join_segments _)), <- join_segments_cons.
      rewrite !app_assoc_s.
      repeat split; [by econstructor | by constructor | done..].
Qed.

(** The writes of [walk] are the value keys and the units keys. *)
Lemma elem_of_written root prefix k :
  k ∈ written root prefix <-> value_key root prefix k \/ units_key root prefix k.
Proof.
  revert prefix.
  induction root as [t a cs IH] using Element_forall_ind; intros prefix.
  rewrite value_key_unfold, units_key_unfold.
  rewrite Forall_forall in IH.
  cbn [written]. set (root := Node t a cs).
  destruct (decide (tag_name root = "doc")) as [Hdoc|Hdoc].
  { rewrite elem_of_nil. tauto. }
  rewrite !elem_of_app, elem_of_concat_map.
  split.
  - intros [Hk|[Hk|(c & Hc & Hk)]].
    + left. split; [done|]. left.
      destruct (bool_decide_reflect
        (tag_name root = "field" \/ tag_name root = "attribute")) as [Ht|Ht];
        [|by apply elem_of_nil in Hk].
      by apply list_elem_of_singleton in Hk.
    + right. split; [done|]. left.
      destruct (bool_decide_reflect (tag_name root = "field")) as [Ht|Ht];
        [|by apply elem_of_nil in Hk].
      destruct (has_units root) eqn:Hu; [|by apply elem_of_nil in Hk].
      by apply list_elem_of_singleton in Hk.
    + apply (IH _ Hc) in Hk as [Hk|Hk]; [left|right];
        (split; [done|]); right; by exists c.
  - intros [[_ [[Ht ->]|(c & Hc & Hk)]]|[_ [[[Ht Hu] ->]|(c & Hc & Hk)]]].
    + left. rewrite bool_decide_true by done. by left.
    + right; right. exists c. split; [done|]. apply (IH _ Hc). by left.
    + right; left. rewrite bool_decide_true by done. rewrite Hu. by left.
    + right; right. exists c. split; [done|]. apply (IH _ Hc). by right.
Qed.

Lemma elem_of_value_paths root prefix k :
  k ∈ value_paths root prefix <-> value_key root prefix k.
Proof.
  revert prefix.
  induction root as [t a cs IH] using Element_forall_ind; intros prefix.
  rewrite value_key_unfold.
  rewrite Forall_forall in IH.
  cbn [value_paths]. set (root := Node t a cs).
  destruct (decide (tag_name root = "doc")) as [Hdoc|Hdoc].
  { rewrite elem_of_nil. tauto. }
  rewrite !elem_of_app, elem_of_concat_map.
  split.
  - intros [Hk|(c & Hc & Hk)].
    + split; [done|]. left.
      destruct (bool_decide_reflect
        (tag_name root = "field" \/ tag_name root = "attribute")) as [Ht|Ht];
        [|by apply elem_of_nil in Hk].
      by apply list_elem_of_singleton in Hk.
    + apply (IH _ Hc) in Hk. split; [done|]. right. by exists c.
  - intros [_ [[Ht ->]|(c & Hc & Hk)]].
    + left. rewrite bool_decide_true by done. by left.
    + right. exists c. split; [done|]. by apply (IH _ Hc).
Qed.

(** The template after a walk: [None] at every key written, the rest as
    it was. *)
Lemma walk_lookup root template prefix k :
  (value_key root prefix k \/ units_key root prefix k ->
     walk root template prefix !! k = Some VNone) /\
  (~ (value_key root prefix k \/ units_key root prefix k) ->
     walk root template prefix !! k = template !! k).
Proof.
  rewrite walk_written, write_all_lookup, <- elem_of_written.
  split; intros Hk; [by rewrite decide_True | by rewrite decide_False].
Qed.

Lemma has_units_spec root :
  has_units root = true <->
  exists u, attrib root !! "units" = Some u /\ u ≠ "NX_UNITLESS".
Proof.
  unfold has_units. destruct (attrib root !! "units") as [u|].
  - rewrite bool_decide_eq_true. split; [by exists u | by intros (? & [= <-] & ?)].
  - split; [done | by intros (? & ? & ?)].
Qed.

(** The keys written by a walk that starts at a [field] node. *)
Lemma field_keys root prefix k :
  tag_name root = "field" ->
  let path := prefix +:+ "/" +:+ suffix_of root in
  value_key root prefix k \/ units_key root prefix k <->
  k = path \/ (has_units root = true /\ k = path +:+ "/@units")
  \/ key_below root path k.
Proof.
  intros Htag path. rewrite value_key_unfold, units_key_unfold.
  fold path. unfold key_below. rewrite Htag.
  split.
  - intros [[_ [[_ ->]|(c & Hc & Hk)]]|[_ [[[_ Hu] ->]|(c & Hc & Hk)]]];
      [by left | right; right; exists c; tauto | by right; left
      | right; right; exists c; tauto].
  - intros [->|[[Hu ->]|(c & Hc & [Hk|Hk])]].
    + left. split; [done|]. left. split; [by left | done].
    + right. split; [done|]. by left.
    + left. split; [done|]. right. by exists c.
    + right. split; [done|]. right. by exists c.
Qed.

(** C1, with the [@units] keys of C7 counted in: the keys of the template
    that [generate_template_from_nxdl] returns are the keys it was given,
    the path of every [field] or [attribute] node that is not under a
    [doc] node, and the [@units] sibling of every such [field] node whose
    units are given and not [NX_UNITLESS].  A path is the slash-delimited
    concatenation of the segments of the nodes from the start node (the
    first group on a first call) down to the node.  The keys written hold
    [None], all others keep their value; [doc] nodes and what is below
    them add nothing. *)
Theorem generate_template_from_nxdl_keys root template path k :
  let start := match path with None => get_first_group root | Some _ => root end in
  let prefix := default "" path in
  let result := generate_template_from_nxdl root template path in
  (k ∈ dom result <->
     k ∈ dom template \/ value_key start prefix k \/ units_key start prefix k) /\
  (value_key start prefix k \/ units_key start prefix k ->
     result !! k = Some VNone) /\
  (~ (value_key start prefix k \/ units_key start prefix k) ->
     result !! k = template !! k).
Proof.
  intros start prefix result.
  assert (result = walk start template prefix) as -> by by destruct path.
  destruct (walk_lookup start template prefix k) as [Hin Hout].
  split; [|done].
  rewrite !elem_of_dom.
  destruct (decide (k ∈ written start prefix)) as [Hk|Hk];
    rewrite elem_of_written in Hk.
  - rewrite (Hin Hk). split; [by right | by eexists].
  - rewrite (Hout Hk). tauto.
Qed.

(** C7: a walk that starts at a [field] node writes [None] at the path of
    the node; with a [units] attribute other than [NX_UNITLESS] it also
    writes [None] at [<path>/@units], and apart from the keys below the
    children nothing else; with [units] absent or [NX_UNITLESS] the path of
    the node is the only key the node itself adds. *)
Theorem field_units_key root template prefix :
  tag_name root = "field" ->
  let path := prefix +:+ "/" +:+ suffix_of root in
  let result := generate_template_from_nxdl root template (Some prefix) in
  result !! path = Some VNone /\
  (forall u, attrib root !! "units" = Some u -> u ≠ "NX_UNITLESS" ->
     result !! (path +:+ "/@units") = Some VNone /\
     forall k, k ≠ path -> k ≠ path +:+ "/@units" -> ~ key_below root path k ->
       result !! k = template !! k) /\
  (attrib root !! "units" = None \/ attrib root !! "units" = Some "NX_UNITLESS" ->
     forall k, k ≠ path -> ~ key_below root path k ->
       result !! k = template !! k).
Proof.
  intros Htag path result. unfold result, generate_template_from_nxdl.
  pose proof (fun k => field_keys root prefix k Htag) as Hkeys.
  cbv zeta in Hkeys. fold path in Hkeys.
  split; [|split].
  - apply walk_lookup, Hkeys. by left.
  - intros u Hu Hne.
    assert (has_units root = true) as Hunits by (apply has_units_spec; eauto).
    split.
    + apply walk_lookup, Hkeys. right; left. done.
    + intros k Hk1 Hk2 Hk3. apply walk_lookup. rewrite Hkeys. tauto.
  - intros Hu k Hk1 Hk2. apply walk_lookup. rewrite Hkeys.
    intros [?|[[Hunits _]|?]]; [done| |done].
    apply has_units_spec in Hunits as (u & Hu' & Hne).
    destruct Hu as [Hu|Hu]; congruence.
Qed.

End WalkerFacts.

Section WalkerExamples.
Existing Instance example_foreign.
Existing Instance nxdl_helpers.

Example example_nxdl_template :
  generate_template_from_nxdl example_nxdl ∅ None
  = list_to_map [("/ENTRY[entry]/wavelength", VNone);
                 ("/ENTRY[entry]/wavelength/@units", VNone);
                 ("/ENTRY[entry]/wavelength/@long_name", VNone);
                 ("/ENTRY[entry]/definition", VNone);
                 ("/ENTRY[entry]/data/_FLOAT[_FLOAT]", VNone)].
Proof. by vm_compute. Qed.

Lemma generate_template_from_nxdl_keys_witness :
  let k := "/ENTRY[entry]/wavelength/@long_name" in
  value_key (get_first_group example_nxdl) "" k /\
  generate_template_from_nxdl example_nxdl ∅ None !! k = Some VNone.
Proof.
  intros k.
  assert (value_key (get_first_group example_nxdl) "" k) as Hk.
  { apply elem_of_value_paths, (bool_decide_unpack _). by vm_compute. }
  split; [exact Hk|].
  apply (generate_template_from_nxdl_keys example_nxdl ∅ None k). by left.
Defined.

(** With units on a field, the template has a key that is the path of no
    node: [value_keys_only] fails. *)
Lemma value_keys_only_counterexample : ~ value_keys_only units_nxdl.
Proof.
  intros Hall. destruct (Hall "/ENTRY[entry]/x/@units") as [Hdom _].
  assert ("/ENTRY[entry]/x/@units"
            ∈ dom (generate_template_from_nxdl units_nxdl ∅ None)) as Hk.
  { apply elem_of_dom. exists VNone. by vm_compute. }
  apply Hdom, elem_of_value_paths, (bool_decide_pack _) in Hk.
  by vm_compute in Hk.
Qed.

Lemma field_units_key_witness :
  let root := Node "field" {["name" := "x"; "units" := "nm"]} [] in
  let result := generate_template_from_nxdl root ∅ (Some "/ENTRY[entry]") in
  tag_name root = "field" /\
  result !! "/ENTRY[entry]/x" = Some (VNone) /\
  result !! "/ENTRY[entry]/x/@units" = Some VNone.
Proof.
  intros root result.
  assert (tag_name root = "field") as Htag by reflexivity.
  split; [exact Htag|].
  destruct (field_units_key root ∅ "/ENTRY[entry]" Htag) as (Hp & Hu & _).
  split; [exact Hp|].
  by apply (Hu "nm").
Defined.

End WalkerExamples.

(** ** The order of strings and the stable sort *)

Lemma ltb_leb (a b : string) : String.ltb a b = negb (String.leb b a).
Proof.
  unfold String.ltb, String.leb. rewrite (String.compare_antisym b a).
  by destruct (String.compare a b).
Qed.

Lemma not_ltb_le (a b : string) : String.ltb b a = false <-> String.le a b.
Proof.
  rewrite ltb_leb, negb_false_iff. unfold String.le.
  by rewrite Is_true_true.
Qed.

Lemma filter_none {A} (P : A -> Prop) `{!forall x, Decision (P x)} (l : list A) :
  (forall z, z ∈ l -> ~ P z) -> filter P l = [].
Proof.
  induction l as [|y l IH]; intros Hl; [done|].
  rewrite filter_cons_False by (apply Hl; by left).
  apply IH. intros z Hz. apply Hl. by right.
Qed.

Section Sorting.
Context {A : Type} (key : A -> string).

Lemma key_le_trans x y z : (key_le key) x y -> (key_le key) y z -> (key_le key) x z.
Proof. unfold key_le. rewrite !not_ltb_le. apply transitivity. Qed.

Lemma key_le_antisym x y : (key_le key) x y -> (key_le key) y x -> key x = key y.
Proof. unfold key_le. rewrite !not_ltb_le. apply anti_symm, _. Qed.

Lemma key_lt_le x y : String.ltb (key x) (key y) = true -> (key_le key) x y.
Proof.
  unfold key_le. rewrite not_ltb_le. intros Hlt.
  destruct (total String.le (key x) (key y)) as [?|Hle]; [done|].
  apply not_ltb_le in Hle. congruence.
Qed.

Lemma key_lt_ne x y : String.ltb (key x) (key y) = true -> key x ≠ key y.
Proof.
  intros Hlt Heq. rewrite Heq in Hlt.
  assert (String.ltb (key y) (key y) = false) by by apply not_ltb_le.
  congruence.
Qed.

Lemma key_lt_le_trans x y z :
  String.ltb (key x) (key y) = true -> (key_le key) y z ->
  String.ltb (key x) (key z) = true.
Proof.
  intros Hlt Hle. destruct (String.ltb (key x) (key z)) eqn:Hxz; [done|].
  assert ((key_le key) z x) as Hzx by done.
  pose proof (key_le_trans _ _ _ Hle Hzx) as Hyx.
  unfold key_le in Hyx. congruence.
Qed.

Lemma insert_by_elem_of l x z : z ∈ insert_by key l x <-> z = x \/ z ∈ l.
Proof.
  induction l as [|y l IH]; simpl.
  - rewrite list_elem_of_singleton, elem_of_nil. tauto.
  - destruct (String.ltb (key x) (key y)).
    + rewrite !elem_of_cons. tauto.
    + rewrite !elem_of_cons, IH. tauto.
Qed.

Lemma insert_by_sorted l x :
  StronglySorted (key_le key) l -> StronglySorted (key_le key) (insert_by key l x).
Proof.
  induction 1 as [|y l Hl IH Hy]; simpl.
  - by repeat constructor.
  - destruct (String.ltb (key x) (key y)) eqn:Hxy.
    + constructor; [by constructor|].
      constructor; [by apply key_lt_le|].
      eapply Forall_impl; [exact Hy|].
      intros z Hz. eapply key_le_trans; [by apply key_lt_le|done].
    + constructor; [done|].
      apply Forall_forall. intros z [->|Hz]%insert_by_elem_of; [done|].
      by eapply Forall_forall in Hy.
Qed.

Lemma fold_insert_by_sorted l acc :
  StronglySorted (key_le key) acc ->
  StronglySorted (key_le key) (fold_left (insert_by key) l acc).
Proof.
  revert acc. induction l as [|x l IH]; intros acc Hacc; simpl; [done|].
  by apply IH, insert_by_sorted.
Qed.

Lemma sorted_sorted l : StronglySorted (key_le key) (sorted l key).
Proof. apply fold_insert_by_sorted. constructor. Qed.

(** Sorting commutes with dropping elements. *)
Lemma insert_by_filter (P : A -> Prop) `{!forall x, Decision (P x)} l x :
  StronglySorted (key_le key) l ->
  filter P (insert_by key l x)
  = if decide (P x) then insert_by key (filter P l) x else filter P l.
Proof.
  induction 1 as [|y l Hl IH Hy]; simpl.
  - rewrite filter_cons, filter_nil. by destruct (decide (P x)).
  - destruct (String.ltb (key x) (key y)) eqn:Hxy.
    + rewrite (filter_cons _ x). destruct (decide (P x)) as [HP|HP]; [|done].
      f_equal. destruct (filter P (y :: l)) as [|z l'] eqn:Hf; [done|].
      assert (z ∈ y :: l) as Hz.
      { eapply (list_elem_of_filter P). rewrite Hf. by left. }
      simpl.
      assert (String.ltb (key x) (key z) = true) as ->; [|done].
      apply elem_of_cons in Hz as [->|Hz]; [done|].
      eapply key_lt_le_trans; [done|]. by eapply Forall_forall in Hy.
    + rewrite !(filter_cons _ y), IH.
      destruct (decide (P y)), (decide (P x)); simpl; by rewrite ?Hxy.
Qed.

Lemma fold_insert_by_filter (P : A -> Prop) `{!forall x, Decision (P x)} l acc :
  StronglySorted (key_le key) acc ->
  filter P (fold_left (insert_by key) l acc)
  = fold_left (insert_by key) (filter P l) (filter P acc).
Proof.
  revert acc. induction l as [|x l IH]; intros acc Hacc; simpl; [done|].
  rewrite IH by by apply insert_by_sorted.
  rewrite insert_by_filter by done. rewrite filter_cons.
  by destruct (decide (P x)).
Qed.

Lemma sorted_filter (P : A -> Prop) `{!forall x, Decision (P x)} l :
  filter P (sorted l key) = sorted (filter P l) key.
Proof. unfold sorted. rewrite fold_insert_by_filter; [done | constructor]. Qed.

(** The sort is stable: elements that share a key keep their order. *)
Lemma insert_by_same_key e l x :
  StronglySorted (key_le key) l ->
  filter (fun z => key z = e) (insert_by key l x)
  = filter (fun z => key z = e) l ++ (if decide (key x = e) then [x] else []).
Proof.
  induction 1 as [|y l Hl IH Hy]; simpl.
  - rewrite filter_cons, filter_nil. by destruct (decide (key x = e)).
  - destruct (String.ltb (key x) (key y)) eqn:Hxy.
    + rewrite (filter_cons _ x). destruct (decide (key x = e)) as [He|He].
      * assert (filter (fun z => key z = e) (y :: l) = []) as ->; [|done].
        apply filter_none. intros z Hz Hze.
        assert (String.ltb (key x) (key z) = true) as Hxz.
        { apply elem_of_cons in Hz as [->|Hz]; [done|].
          eapply key_lt_le_trans; [done|]. by eapply Forall_forall in Hy. }
        apply key_lt_ne in Hxz. congruence.
      * by rewrite app_nil_r.
    + rewrite !(filter_cons _ y), IH. by destruct (decide (key y = e)).
Qed.

Lemma fold_insert_by_same_key e l acc :
  StronglySorted (key_le key) acc ->
  filter (fun z => key z = e) (fold_left (insert_by key) l acc)
  = filter (fun z => key z = e) acc ++ filter (fun z => key z = e) l.
Proof.
  revert acc. induction l as [|x l IH]; intros acc Hacc; simpl.
  - by rewrite filter_nil, app_nil_r.
  - rewrite IH by by apply insert_by_sorted.
    rewrite insert_by_same_key by done. rewrite filter_cons, <- app_assoc.
    by destruct (decide (key x = e)).
Qed.

Lemma sorted_same_key e l :
  filter (fun z => key z = e) (sorted l key) = filter (fun z => key z = e) l.
Proof. unfold sorted. rewrite fold_insert_by_same_key; [done | constructor]. Qed.

(** Two sorted lists that agree key by key are equal. *)
Lemma sorted_unique l1 l2 :
  StronglySorted (key_le key) l1 -> StronglySorted (key_le key) l2 ->
  (forall e, filter (fun z => key z = e) l1 = filter (fun z => key z = e) l2) ->
  l1 = l2.
Proof.
  intros H1. revert l2. induction H1 as [|x l1 Hl1 IH Hx]; intros l2 H2 Hsame.
  - destruct l2 as [|y l2]; [done|].
    specialize (Hsame (key y)). rewrite filter_nil, filter_cons in Hsame.
    by rewrite decide_True in Hsame.
  - destruct H2 as [|y l2 Hl2 Hy].
    { specialize (Hsame (key x)). rewrite filter_nil, filter_cons in Hsame.
      by rewrite decide_True in Hsame. }
    assert (key x = key y) as Hxy.
    { apply key_le_antisym.
      - assert (y ∈ x :: l1) as Hin.
        { eapply (list_elem_of_filter (fun z => key z = key y)).
          rewrite Hsame, filter_cons, decide_True by done. by left. }
        apply elem_of_cons in Hin as [->|Hin]; [by apply not_ltb_le|].
        by eapply Forall_forall in Hx.
      - assert (x ∈ y :: l2) as Hin.
        { eapply (list_elem_of_filter (fun z => key z = key x)).
          rewrite <- Hsame, filter_cons, decide_True by done. by left. }
        apply elem_of_cons in Hin as [->|Hin]; [by apply not_ltb_le|].
        by eapply Forall_forall in Hy. }
    pose proof (Hsame (key x)) as Hhead.
    rewrite !filter_cons, decide_True, (decide_True (P := key y = key x))
      in Hhead by done.
    injection Hhead as -> Htail. f_equal.
    apply IH; [done|]. intros e.
    destruct (decide (e = key y)) as [->|He]; [done|].
    specialize (Hsame e). rewrite !filter_cons in Hsame.
    by rewrite !decide_False in Hsame by done.
Qed.

End Sorting.

(** ** The transmission reader *)

Section ReaderFacts.
Context `{Foreign} `{!Mpars} `{!System}.

(** C10: whenever [data_to_template] returns a dictionary, and it does so
    as soon as [data.values[:, 0]] can be taken, that dictionary maps
    [/ENTRY[entry]/data/@signal] to ["transmission"] (the ["data"] written
    first is overwritten), [/ENTRY[entry]/data/@axes] to ["wavelength"] and
    [/ENTRY[entry]/data/type] to ["transmission"]. *)
Theorem data_to_template_signal (data : DataFrame) :
  (forall col, values_col0 data = Ok col ->
     exists template, data_to_template data = Ok template) /\
  (forall template, data_to_template data = Ok template ->
     template !! "/ENTRY[entry]/data/@signal" = Some (VStr "transmission") /\
     template !! "/ENTRY[entry]/data/@axes" = Some (VStr "wavelength") /\
     template !! "/ENTRY[entry]/data/type" = Some (VStr "transmission")).
Proof.
  unfold data_to_template. split.
  - intros col ->. eexists. reflexivity.
  - intros template. destruct (values_col0 data) as [col|e]; [|done].
    intros [= <-]. by simplify_map_eq.
Qed.

(** The fixed keys are in the template once they have been set. *)
Lemma set_fixed_keys_lookup (template : Template) :
  Forall (fun kv => set_fixed_keys template !! kv.1 = Some kv.2) fixed_keys.
Proof. unfold set_fixed_keys, fixed_keys. repeat constructor; by simplify_map_eq. Qed.

Lemma set_fixed_keys_dom (template : Template) :
  dom template ⊆ dom (set_fixed_keys template).
Proof. unfold set_fixed_keys. rewrite !dom_insert_L. set_solver. Qed.

Lemma update_dom (d e : Template) : dom d ⊆ dom (update d e).
Proof. unfold update. rewrite dom_union_L. set_solver. Qed.

(** The loop over the files never removes a key. *)
Lemma read_files_dom sorted_paths (template : Template) out :
  dom template ⊆ dom (tmpl (read_files sorted_paths template out)).
Proof.
  revert template out.
  induction sorted_paths as [|file_path ps IH]; intros template out; simpl; [done|].
  destruct (decide (extensions !! (splitext file_path).2 = None)); [apply IH|].
  destruct (path_exists file_path); simpl; [|apply IH].
  destruct (default _ _ file_path) as [lines [d|e]]; simpl; [|done].
  etrans; [apply (update_dom template d) | apply IH].
Qed.

(** C2: the template [read] returns, or leaves behind when a parser raises,
    has every key of the template it was given. *)
Theorem read_keeps_keys (template : Template) (file_paths : list string) :
  dom template ⊆ dom (tmpl (read template file_paths)).
Proof.
  unfold read. etrans; [apply set_fixed_keys_dom | apply read_files_dom].
Qed.

Lemma extensions_lookup_None e : extensions !! e = None <-> e ∉ recognized.
Proof.
  unfold extensions, recognized.
  rewrite !lookup_insert_None, lookup_empty, !not_elem_of_cons, elem_of_nil.
  split.
  - intros [[[[_ ?] ?] ?] ?]. repeat split; (by apply not_eq_sym) || tauto.
  - intros (? & ? & ? & ? & _). repeat split; (by apply not_eq_sym) || done.
Qed.

Lemma fold_insert_by_elem_of {A} (key : A -> string) l acc z :
  z ∈ fold_left (insert_by key) l acc <-> z ∈ acc \/ z ∈ l.
Proof.
  revert acc. induction l as [|x l IH]; intros acc; simpl.
  - rewrite elem_of_nil. tauto.
  - rewrite IH, insert_by_elem_of, elem_of_cons. tauto.
Qed.

Lemma sorted_elem_of {A} (key : A -> string) l z : z ∈ sorted l key <-> z ∈ l.
Proof. unfold sorted. rewrite fold_insert_by_elem_of, elem_of_nil. tauto. Qed.

(** A skipped file costs one warning and nothing else. *)
Lemma read_files_skip file_path sorted_paths (template : Template) out :
  skipped file_path ->
  read_files (file_path :: sorted_paths) template out
  = read_files sorted_paths template (out ++ [skip_warning file_path]).
Proof.
  intros Hskip. simpl. unfold skip_warning.
  destruct (decide (extensions !! (splitext file_path).2 = None)) as [He|He].
  - apply extensions_lookup_None in He. by rewrite decide_False.
  - rewrite extensions_lookup_None in He.
    destruct Hskip as [? | ->]; [done|]. simpl.
    rewrite decide_True; [done|]. by destruct (decide ((splitext file_path).2 ∈ recognized)).
Qed.

(** A file that is not skipped is handed to its parser. *)
Lemma read_files_parse file_path sorted_paths (template : Template) out :
  ~ skipped file_path ->
  read_files (file_path :: sorted_paths) template out
  = let '(lines, r) :=
      default (fun _ => ([], Ok ∅)) (extensions !! (splitext file_path).2) file_path in
    match r with
    | Ok d => read_files sorted_paths (update template d) (out ++ lines)
    | Raise e => {| tmpl := template; printed := out ++ lines; raised := Some e |}
    end.
Proof.
  intros Hskip. simpl.
  destruct (decide (extensions !! (splitext file_path).2 = None)) as [He|He].
  - apply extensions_lookup_None in He. destruct Hskip. by left.
  - destruct (path_exists file_path) eqn:Hex; [done|]. destruct Hskip. by right.
Qed.

(** The printed text does not steer the loop. *)
Lemma read_files_out sorted_paths (template : Template) out out' :
  tmpl (read_files sorted_paths template out)
    = tmpl (read_files sorted_paths template out') /\
  raised (read_files sorted_paths template out)
    = raised (read_files sorted_paths template out').
Proof.
  revert template out out'.
  induction sorted_paths as [|file_path ps IH]; intros template out out'; [done|].
  destruct (decide (skipped file_path)) as [Hs|Hs].
  - rewrite !read_files_skip by done. apply IH.
  - rewrite !read_files_parse by done.
    destruct (default _ _ file_path) as [lines [d|e]]; [apply IH | done].
Qed.

Lemma read_files_filter sorted_paths (template : Template) out :
  tmpl (read_files sorted_paths template out)
    = tmpl (read_files (filter (fun f => ~ skipped f) sorted_paths) template out) /\
  raised (read_files sorted_paths template out)
    = raised (read_files (filter (fun f => ~ skipped f) sorted_paths) template out).
Proof.
  revert template out.
  induction sorted_paths as [|file_path ps IH]; intros template out; [done|].
  rewrite filter_cons. destruct (decide (skipped file_path)) as [Hs|Hs].
  - rewrite decide_False by tauto. rewrite read_files_skip by done.
    destruct (IH template out) as [<- <-]. apply read_files_out.
  - rewrite decide_True by done. rewrite !read_files_parse by done.
    destruct (default _ _ file_path) as [lines [d|e]]; [apply IH | done].
Qed.

Lemma read_files_printed sorted_paths (template : Template) out w :
  w ∈ out -> w ∈ printed (read_files sorted_paths template out).
Proof.
  revert template out.
  induction sorted_paths as [|file_path ps IH]; intros template out Hw; [done|].
  destruct (decide (skipped file_path)) as [Hs|Hs].
  - rewrite read_files_skip by done. apply IH, elem_of_app. by left.
  - rewrite read_files_parse by done.
    destruct (default _ _ file_path) as [lines [d|e]]; simpl;
      [apply IH|]; apply elem_of_app; by left.
Qed.

Lemma read_files_warnings sorted_paths (template : Template) out file_path :
  raised (read_files sorted_paths template out) = None ->
  file_path ∈ sorted_paths -> skipped file_path ->
  skip_warning file_path ∈ printed (read_files sorted_paths template out).
Proof.
  revert template out.
  induction sorted_paths as [|p ps IH]; intros template out Hr Hin Hskip.
  { by apply elem_of_nil in Hin. }
  destruct (decide (skipped p)) as [Hs|Hs].
  - rewrite read_files_skip in * by done.
    apply elem_of_cons in Hin as [->|Hin]; [|by apply IH].
    apply read_files_printed, elem_of_app. right. by left.
  - apply elem_of_cons in Hin as [->|Hin]; [done|].
    rewrite read_files_parse in * by done.
    destruct (default _ _ p) as [lines [d|e]]; [by apply IH | done].
Qed.

(** Where the value of a key comes from after the loop. *)
Lemma read_files_lookup sorted_paths (template : Template) out k :
  tmpl (read_files sorted_paths template out) !! k = template !! k \/
  exists file_path d, file_path ∈ sorted_paths /\ parsed file_path d /\
    is_Some (d !! k) /\
    tmpl (read_files sorted_paths template out) !! k = d !! k.
Proof.
  revert template out.
  induction sorted_paths as [|p ps IH]; intros template out; [by left|].
  destruct (decide (skipped p)) as [Hs|Hs].
  - rewrite read_files_skip by done.
    destruct (IH template (out ++ [skip_warning p])) as [?|(f & d & ? & ?)];
      [by left|]. right. exists f, d. split; [by right | done].
  - rewrite read_files_parse by done.
    destruct (default _ _ p) as [lines [d|e]] eqn:Hp; [|by left].
    destruct (IH (update template d) (out ++ lines)) as [Hk|(f & d' & ? & ?)].
    + rewrite Hk. unfold update. destruct (d !! k) as [v|] eqn:Hd.
      * right. exists p, d. split; [by left|]. split; [by split; [|exists lines]|].
        rewrite Hd. split; [by eexists|]. by apply lookup_union_Some_l.
      * left. by apply lookup_union_r.
    + right. exists f, d'. split; [by right | done].
Qed.

(** C9: whatever the template and the file paths, also none at all, [read]
    sets [/@default], [/ENTRY[entry]/@default], [/ENTRY[entry]/definition],
    [/ENTRY[entry]/definition/@version] and [/ENTRY[entry]/definition/@url]
    to their fixed values before it handles a file: a read without files
    returns the template with exactly these five writes done; after any
    read, also one that a parser ended with an exception, the five keys are
    in the template, each with its fixed value unless a file that was read
    wrote the key afterwards. *)
Theorem read_sets_fixed_keys (template : Template) (file_paths : list string) :
  let run := read template file_paths in
  read template []
    = {| tmpl := set_fixed_keys template; printed := []; raised := None |} /\
  Forall (fun kv =>
    set_fixed_keys template !! kv.1 = Some kv.2 /\
    kv.1 ∈ dom (tmpl run) /\
    (tmpl run !! kv.1 = Some kv.2 \/
     exists file_path d, file_path ∈ file_paths /\ parsed file_path d /\
       is_Some (d !! kv.1) /\ tmpl run !! kv.1 = d !! kv.1)) fixed_keys.
Proof.
  intros run. split; [done|].
  eapply Forall_impl; [apply set_fixed_keys_lookup|].
  intros [k v] Hk. simpl in *. split; [done|]. split.
  - apply (read_files_dom _ (set_fixed_keys template)), elem_of_dom. by eexists.
  - unfold run, read.
    destruct (read_files_lookup
      (sorted file_paths (fun f => (splitext f).2)) (set_fixed_keys template) [] k)
      as [->|(f & d & Hf & Hrest)]; [by left|].
    right. exists f, d. split; [by apply sorted_elem_of in Hf | done].
Qed.

(** C5: a file whose extension is not one of [.asc], [.json], [.yml],
    [.yaml], or that does not exist, is skipped with a warning: the template
    and the exception of a read, if any, are those of the read without the
    skipped files; handling a skipped file prints its warning, changes
    nothing else and goes on with the files left; when only skipped files
    are given the read returns the template with the five fixed keys set;
    and when the read returns, the warning of every skipped file has been
    printed. *)
Theorem read_skips_files (template : Template) (file_paths : list string) :
  let run := read template file_paths in
  let run' := read template (filter (fun f => ~ skipped f) file_paths) in
  (tmpl run = tmpl run' /\ raised run = raised run') /\
  (forall file_path sorted_paths (template : Template) out,
     skipped file_path ->
     read_files (file_path :: sorted_paths) template out
     = read_files sorted_paths template (out ++ [skip_warning file_path])) /\
  (Forall skipped file_paths ->
     tmpl run = set_fixed_keys template /\ raised run = None) /\
  (raised run = None ->
     forall file_path, file_path ∈ file_paths -> skipped file_path ->
       skip_warning file_path ∈ printed run).
Proof.
  intros run run'.
  assert (tmpl run = tmpl run' /\ raised run = raised run') as Hsame.
  { unfold run, run', read. rewrite <- sorted_filter. apply read_files_filter. }
  split; [done|]. split; [|split].
  - intros. by apply read_files_skip.
  - intros Hall. destruct Hsame as [-> ->]. unfold run'.
    rewrite filter_none; [done|].
    intros z Hz Hn. apply Hn. by eapply Forall_forall in Hall.
  - intros Hr file_path Hin Hskip. unfold run, read.
    apply read_files_warnings; [done| |done]. by apply sorted_elem_of.
Qed.

Lemma filter_key_short {A} (key : A -> string) (l : list A) e :
  NoDup (key <$> l) -> (length (filter (fun z => key z = e) l) <= 1)%nat.
Proof.
  induction l as [|x l IH]; [simpl; lia|].
  rewrite fmap_cons, NoDup_cons. intros [Hx Hl]. rewrite filter_cons.
  destruct (decide (key x = e)) as [<-|]; [|by apply IH].
  rewrite filter_none; [simpl; lia|].
  intros z Hz Hzx. apply Hx. rewrite <- Hzx. apply list_elem_of_fmap. by exists z.
Qed.

(** Permuted lists with pairwise distinct extensions name the files of
    every extension in the same order. *)
Lemma permutation_same_order l1 l2 :
  l1 ≡ₚ l2 -> NoDup ((fun f => (splitext f).2) <$> l1) ->
  same_order_per_extension l1 l2.
Proof.
  intros Hperm Hnd e.
  pose proof (filter_key_short (fun f => (splitext f).2) l1 e Hnd) as Hlen.
  assert (filter (fun f => (splitext f).2 = e) l1
          ≡ₚ filter (fun f => (splitext f).2 = e) l2) as Hf by by rewrite Hperm.
  destruct (filter _ l1) as [|x [|??]]; simpl in Hlen; [| |lia].
  - by apply Permutation_nil_l in Hf.
  - by apply Permutation_singleton_l in Hf.
Qed.

(** C3, for lists that keep the order within an extension: two file-path
    sequences that name the files of every extension in the same relative
    order, in particular permutations of each other without two files of the
    same extension, give the same run of [read], because the files are
    handled sorted by extension, the later ones overwriting the keys of the
    earlier ones. *)
Theorem read_order_independent (template : Template) (l1 l2 : list string) :
  (same_order_per_extension l1 l2 -> read template l1 = read template l2) /\
  (l1 ≡ₚ l2 -> NoDup ((fun f => (splitext f).2) <$> l1) ->
     read template l1 = read template l2).
Proof.
  assert (same_order_per_extension l1 l2 -> read template l1 = read template l2)
    as Hmain.
  { intros Hsame. unfold read. f_equal.
    apply (sorted_unique (fun f => (splitext f).2)); [apply sorted_sorted..|].
    intros e. by rewrite !sorted_same_key. }
  split; [done|]. intros Hperm Hnd. by apply Hmain, permutation_same_order.
Qed.

(** One round of the loop over the metadata map. *)
Lemma eval_rule_Ok metadata (template : Template) out path val t1 o1 :
  eval_rule metadata (template, out) (path, val) = Ok (t1, o1) ->
  rule_ok metadata (path, val) /\
  (forall k, k ≠ path -> t1 !! k = template !! k) /\
  (forall w, w ∈ out -> w ∈ o1) /\
  rule_yields metadata template t1 o1 (path, val).
Proof.
  unfold eval_rule, rule_ok, rule_yields. destruct val as [i|s|f|ty v]; simpl.
  - destruct (py_getitem metadata i) as [line|e]; simpl; [|done].
    intros [= <- <-]. split; [by eexists|]. split; [|split; [done|]].
    + intros k Hk. by rewrite lookup_insert_ne.
    + exists line. by rewrite lookup_insert_eq.
  - intros [= <- <-]. split; [done|]. split; [|split; [done|]].
    + intros k Hk. by rewrite lookup_insert_ne.
    + by rewrite lookup_insert_eq.
  - destruct (f metadata) as [v|e]; simpl; [|done].
    intros [= <- <-]. split; [by eexists|]. split; [|split; [done|]].
    + intros k Hk. by rewrite lookup_insert_ne.
    + exists v. by rewrite lookup_insert_eq.
  - intros [= <- <-]. split; [done|]. split; [done|].
    split; [intros w Hw|split; [done|]]; apply elem_of_app; [by left|].
    right. by left.
Qed.

Lemma eval_rule_total metadata (template : Template) out item :
  rule_ok metadata item ->
  exists t1 o1, eval_rule metadata (template, out) item = Ok (t1, o1).
Proof.
  destruct item as [path [i|s|f|ty v]]; unfold rule_ok, eval_rule; simpl.
  - intros [line ->]. by eexists _, _.
  - by eexists _, _.
  - intros [v ->]. by eexists _, _.
  - by eexists _, _.
Qed.

Lemma rule_yields_before metadata (t t1 after : Template) out item :
  t1 !! item.1 = t !! item.1 ->
  rule_yields metadata t1 after out item -> rule_yields metadata t after out item.
Proof.
  destruct item as [path [i|s|f|ty v]]; simpl; try done.
  by intros -> [? ?].
Qed.

Lemma eval_rules_Ok metadata map (template : Template) out out' after :
  NoDup map.*1 ->
  eval_rules metadata map template out = (out', Ok after) ->
  Forall (rule_ok metadata) map /\
  (forall k, k ∉ map.*1 -> after !! k = template !! k) /\
  (forall w, w ∈ out -> w ∈ out') /\
  Forall (rule_yields metadata template after out') map.
Proof.
  revert template out.
  induction map as [|[path val] map IH]; intros template out Hnd Hrest.
  { injection Hrest as <- <-. by repeat split. }
  rewrite fmap_cons in Hnd. apply NoDup_cons in Hnd as [Hpath Hnd].
  cbn [eval_rules] in Hrest.
  destruct (eval_rule metadata (template, out) (path, val))
    as [[t1 o1]|e] eqn:Hrule; [|done].
  apply eval_rule_Ok in Hrule as (Hok & Hother & Hout & Hyields).
  apply IH in Hrest as (Hoks & Hkeep & Hout' & Hall); [|done].
  split; [by constructor|]. split; [|split].
  - intros k Hk. rewrite fmap_cons in Hk.
    apply not_elem_of_cons in Hk as [Hk1 Hk2]. by rewrite Hkeep, Hother.
  - intros w Hw. by apply Hout', Hout.
  - constructor.
    + destruct val as [i|s|f|ty v]; simpl in *.
      * destruct Hyields as (line & ? & Hl). exists line. by rewrite Hkeep.
      * by rewrite Hkeep.
      * destruct Hyields as (v & ? & Hl). exists v. by rewrite Hkeep.
      * destruct Hyields as [Hl Hw]. rewrite Hkeep by done. split; [done|].
        by apply Hout'.
    + apply Forall_forall. intros item Hitem.
      eapply rule_yields_before; [|by eapply Forall_forall in Hall].
      apply Hother. intros Heq. apply Hpath. simpl. rewrite <- Heq.
      apply list_elem_of_fmap. by exists item.
Qed.

Lemma eval_rules_total metadata map (template : Template) out :
  Forall (rule_ok metadata) map ->
  exists out' after, eval_rules metadata map template out = (out', Ok after).
Proof.
  intros Hall. revert template out.
  induction Hall as [|item map Hok _ IH]; intros template out.
  { by eexists _, _. }
  cbn [eval_rules].
  destruct (eval_rule_total metadata template out item Hok) as (t1 & o1 & ->).
  apply IH.
Qed.

(** C4: the loop of [parse_asc] over a metadata map (a dictionary, so no
    path twice) returns exactly when every integer rule has a preamble line
    at its index and every function rule returns; then the template holds,
    at the path of an integer rule the preamble line at that index as a
    string, at the path of a string rule that string, at the path of a
    function rule what the function returns for the whole preamble, and at
    the path of a rule of another type what it held before (from [parse_asc]:
    nothing), with a warning printed for it; the other rules are evaluated
    all the same, and no other path is touched. *)
Theorem eval_rules_yields metadata map (template : Template) out :
  NoDup map.*1 ->
  (Forall (rule_ok metadata) map <->
     exists out' after, eval_rules metadata map template out = (out', Ok after)) /\
  (forall out' after,
     eval_rules metadata map template out = (out', Ok after) ->
     Forall (rule_yields metadata template after out') map /\
     (forall k, k ∉ map.*1 -> after !! k = template !! k)).
Proof.
  intros Hnd. split; [split|].
  - apply eval_rules_total.
  - intros (out' & after & Hrun). by apply eval_rules_Ok in Hrun as (? & _).
  - intros out' after Hrun. by apply eval_rules_Ok in Hrun as (_ & ? & _ & ?).
Qed.

Lemma bind_Ok {A B} (a : A) (k : A -> Result B) : (Ok a ≫= k) = k a.
Proof. reflexivity. Qed.

Lemma py_getitem_lookup {A} (l : list A) (i : nat) (a : A) :
  l !! i = Some a -> py_getitem l (Z.of_nat i) = Ok a.
Proof.
  intros Hl. unfold py_getitem. pose proof (lookup_lt_Some _ _ _ Hl) as Hlt.
  destruct (Z.ltb_spec (Z.of_nat i) 0); [lia|].
  destruct (Z.ltb_spec (Z.of_nat i) 0); [lia|].
  destruct (Z.leb_spec (Z.of_nat (length l)) (Z.of_nat i)); [lia|]. simpl.
  by rewrite Nat2Z.id, Hl.
Qed.

Lemma py_getitem_lt {A} (l : list A) (i : nat) :
  (i < length l)%nat -> exists a, py_getitem l (Z.of_nat i) = Ok a.
Proof.
  intros [a Ha]%lookup_lt_is_Some_2. exists a. by apply py_getitem_lookup.
Qed.

Lemma py_getitem_Z {A} (l : list A) (i : Z) :
  (0 <= i < Z.of_nat (length l))%Z -> exists a, py_getitem l i = Ok a.
Proof.
  intros Hi. destruct (py_getitem_lt l (Z.to_nat i)) as [a Ha]; [lia|].
  exists a. by rewrite Z2Nat.id in Ha by lia.
Qed.

Lemma py_getitem_at {A} (l : list A) (i : Z) (a : A) :
  (0 <= i)%Z -> l !! Z.to_nat i = Some a -> py_getitem l i = Ok a.
Proof.
  intros Hi Ha. apply py_getitem_lookup in Ha. by rewrite Z2Nat.id in Ha.
Qed.

(** The dictionary of one detector. *)
Lemma convert_detector_Ok det_type slit time gain det_idx wavelength_range :
  slit_ok slit ->
  exists d,
    convert_detector_to_template det_type slit time gain det_idx wavelength_range
      = Ok d /\
    has_detector d (detector_path det_idx) det_type /\
    (forall k, k ∈ detector_keys (detector_path det_idx) \/ d !! k = None).
Proof.
  intros Hslit. unfold convert_detector_to_template, has_detector.
  fold (detector_path det_idx). set (path := detector_path det_idx).
  assert (forall d : Template,
    (forall k, k ∈ detector_keys path \/ d !! k = None) ->
    forall k' v, k' ∈ detector_keys path ->
    forall k, k ∈ detector_keys path \/ <[k' := v]> d !! k = None) as Hstep.
  { intros d Hd k' v Hk' k. destruct (decide (k = k')) as [->|Hne]; [by left|].
    rewrite lookup_insert_ne by done. apply Hd. }
  assert (forall k, k ∈ detector_keys path \/ (∅ : Template) !! k = None)
    as Hempty by by right.
  unfold detector_keys in Hstep, Hempty.
  destruct gain as [gain|];
    (destruct (decide (slit = "servo")) as [Hs|Hs];
     [|destruct Hslit as [?|[x ->]]; [done|]; rewrite bind_Ok]);
    rewrite bind_Ok; eexists; (split; [reflexivity|]);
    (split; [repeat split; lookup_key; by eauto|]);
    unfold detector_keys; repeat (apply Hstep; [|by in_list]); exact Hempty.
Qed.

(** Looking a key up in a dictionary updated with others that do not have
    it. *)
Lemma update_lookup_other (d e : Template) (keys : list string) k :
  (forall k', k' ∈ keys \/ e !! k' = None) -> k ∉ keys ->
  update d e !! k = d !! k.
Proof.
  intros He Hk. unfold update. destruct (He k) as [?|Hnone]; [done|].
  by apply lookup_union_r.
Qed.

Lemma update_lookup_Some (d e : Template) k v :
  e !! k = Some v -> update d e !! k = Some v.
Proof. intros He. unfold update. by apply lookup_union_Some_l. Qed.

Lemma update_is_Some (d e : Template) k :
  is_Some (d !! k) \/ is_Some (e !! k) -> is_Some (update d e !! k).
Proof.
  unfold update. rewrite lookup_union_is_Some. tauto.
Qed.

Lemma update_has_detector_new (d e : Template) path det_type :
  has_detector e path det_type -> has_detector (update d e) path det_type.
Proof.
  intros (Ht & ? & ? & ?).
  split; [by apply update_lookup_Some|]; repeat split; apply update_is_Some; tauto.
Qed.

Lemma update_has_detector_old (d e : Template) (keys : list string) path det_type :
  (forall k', k' ∈ keys \/ e !! k' = None) -> (path +:+ "/type") ∉ keys ->
  has_detector d path det_type -> has_detector (update d e) path det_type.
Proof.
  intros He Hk (Ht & ? & ? & ?).
  split; [by rewrite (update_lookup_other d e keys)|];
    repeat split; apply update_is_Some; tauto.
Qed.

Lemma update_keys (d e : Template) (keys1 keys2 : list string) :
  (forall k, k ∈ keys1 \/ d !! k = None) ->
  (forall k, k ∈ keys2 \/ e !! k = None) ->
  forall k, k ∈ keys1 ++ keys2 \/ update d e !! k = None.
Proof.
  intros Hd He k. unfold update. rewrite elem_of_app, lookup_union_None.
  destruct (Hd k), (He k); tauto.
Qed.

(** The detectors of a preamble in the expected format. *)
Lemma read_detectors_Ok metadata :
  expected_format metadata ->
  exists d, read_detectors metadata = Ok d /\
    has_detector d "/ENTRY[entry]/instrument/DETECTOR[detector2]" "PMT" /\
    has_detector d "/ENTRY[entry]/instrument/DETECTOR[detector1]" "PbS" /\
    has_detector d "/ENTRY[entry]/instrument/DETECTOR[detector]" "InGaAs" /\
    (forall k, k ∈ all_detector_keys \/ d !! k = None).
Proof.
  intros (_ & _ & l31 & l32 & l35 & l43 & slits & times & gains & changes
          & H31 & Hslits & H32 & Htimes & H35 & Hgains & H43 & Hchanges
          & Hls & Hlt & Hlg & Hlc & Hok).
  unfold read_detectors.
  rewrite (py_getitem_at metadata 31 l31), bind_Ok, Hslits, bind_Ok by done.
  rewrite (py_getitem_at metadata 32 l32), bind_Ok, Htimes, bind_Ok by done.
  rewrite (py_getitem_at metadata 35 l35), bind_Ok, Hgains, bind_Ok by done.
  rewrite (py_getitem_at metadata 43 l43), bind_Ok, Hchanges, bind_Ok by done.
  destruct slits as [|s0 [|s1 [|s2 slits]]]; simpl in Hls; try lia.
  destruct times as [|t0 [|t1 [|t2 times]]]; simpl in Hlt; try lia.
  destruct gains as [|g0 [|g1 gains]]; simpl in Hlg; try lia.
  apply Forall_cons in Hok as [Hs0 Hok]. apply Forall_cons in Hok as [Hs1 Hok].
  apply Forall_cons in Hok as [Hs2 _].
  set (wr := [MIN_WAVELENGTH] ++ (VFloat <$> reverse changes) ++ [MAX_WAVELENGTH]).
  assert (4 <= length wr)%nat as Hwr.
  { unfold wr. rewrite !length_app, length_fmap, length_reverse. simpl. lia. }
  destruct (py_getitem_Z wr 0) as [w0 Hw0]; [lia|].
  destruct (py_getitem_Z wr 1) as [w1 Hw1]; [lia|].
  destruct (py_getitem_Z wr 2) as [w2 Hw2]; [lia|].
  destruct (py_getitem_Z wr 3) as [w3 Hw3]; [lia|].
  rewrite (py_getitem_at (s0 :: s1 :: s2 :: slits) 2 s2), bind_Ok by done.
  rewrite (py_getitem_at (t0 :: t1 :: t2 :: times) 2 t2), bind_Ok by done.
  rewrite Hw0, bind_Ok, Hw1, bind_Ok.
  destruct (convert_detector_Ok "PMT" s2 t2 None 2 [w0; w1] Hs2)
    as (d2 & -> & Hd2 & Hk2).
  rewrite bind_Ok. cbn [for_each]. unfold read_detector.
  rewrite (py_getitem_at (s0 :: s1 :: s2 :: slits) 1 s1), bind_Ok by done.
  rewrite (py_getitem_at (t0 :: t1 :: t2 :: times) 1 t1), bind_Ok by done.
  rewrite (py_getitem_at (g0 :: g1 :: gains) 1 g1), bind_Ok by done.
  change (2 - 1)%Z with 1%Z. change (3 - 1)%Z with 2%Z.
  rewrite Hw1, bind_Ok, Hw2, bind_Ok.
  destruct (convert_detector_Ok "PbS" s1 t1 (Some g1) 1 [w1; w2] Hs1)
    as (d1 & -> & Hd1 & Hk1).
  rewrite !bind_Ok.
  rewrite (py_getitem_at (s0 :: s1 :: s2 :: slits) 0 s0), bind_Ok by done.
  rewrite (py_getitem_at (t0 :: t1 :: t2 :: times) 0 t0), bind_Ok by done.
  rewrite (py_getitem_at (g0 :: g1 :: gains) 0 g0), bind_Ok by done.
  change (2 - 0)%Z with 2%Z. change (3 - 0)%Z with 3%Z.
  rewrite Hw2, bind_Ok, Hw3, bind_Ok.
  destruct (convert_detector_Ok "InGaAs" s0 t0 (Some g0) 0 [w2; w3] Hs0)
    as (d0 & -> & Hd0 & Hk0).
  rewrite !bind_Ok. eexists. split; [reflexivity|].
  change (detector_path 2) with "/ENTRY[entry]/instrument/DETECTOR[detector2]"
    in Hd2.
  change (detector_path 1) with "/ENTRY[entry]/instrument/DETECTOR[detector1]"
    in Hd1.
  change (detector_path 0) with "/ENTRY[entry]/instrument/DETECTOR[detector]"
    in Hd0.
  split; [|split; [|split]].
  - eapply update_has_detector_old; [exact Hk0 | intros Hin; not_key Hin |].
    eapply update_has_detector_old; [exact Hk1 | intros Hin; not_key Hin |].
    by apply update_has_detector_new.
  - eapply update_has_detector_old; [exact Hk0 | intros Hin; not_key Hin |].
    by apply update_has_detector_new.
  - by apply update_has_detector_new.
  - unfold all_detector_keys. rewrite app_assoc.
    apply update_keys; [|done]. apply update_keys; [|done].
    exact (update_keys ∅ d2 [] _ (fun k => or_intror (lookup_empty k)) Hk2).
Qed.

Lemma insert_keys (d : Template) (keys : list string) k' v :
  (forall k, k ∈ keys \/ d !! k = None) -> k' ∈ keys ->
  forall k, k ∈ keys \/ <[k' := v]> d !! k = None.
Proof.
  intros Hd Hk' k. destruct (decide (k = k')) as [->|Hne]; [by left|].
  rewrite lookup_insert_ne by done. apply Hd.
Qed.

Lemma data_to_template_Ok (data : DataFrame) col :
  values_col0 data = Ok col ->
  exists d, data_to_template data = Ok d /\
    d !! "/ENTRY[entry]/data/wavelength" = Some (index_values data) /\
    d !! "/ENTRY[entry]/data/transmission" = Some col /\
    (forall k, k ∈ data_keys \/ d !! k = None).
Proof.
  intros Hcol. unfold data_to_template. rewrite Hcol, bind_Ok.
  eexists. split; [reflexivity|]. split; [by simplify_map_eq|].
  split; [by simplify_map_eq|].
  repeat (apply insert_keys; [|unfold data_keys; by in_list]). by right.
Qed.

Lemma METADATA_MAP_NoDup : NoDup METADATA_MAP.*1.
Proof. apply (bool_decide_unpack _). by vm_compute. Qed.

(** An [.asc] file in the expected format is parsed. *)
Lemma parse_asc_Ok file_path lines metadata rest data col :
  open_lines file_path = Ok lines ->
  read_metadata lines = (metadata, rest) ->
  expected_format metadata ->
  read_csv rest = Ok data ->
  values_col0 data = Ok col ->
  exists out d, parse_asc file_path = (out, Ok d) /\
    d !! "/ENTRY[entry]/data/wavelength" = Some (index_values data) /\
    d !! "/ENTRY[entry]/data/transmission" = Some col /\
    has_detector d "/ENTRY[entry]/instrument/DETECTOR[detector2]" "PMT" /\
    has_detector d "/ENTRY[entry]/instrument/DETECTOR[detector1]" "PbS" /\
    has_detector d "/ENTRY[entry]/instrument/DETECTOR[detector]" "InGaAs" /\
    d !! "/ENTRY[entry]/definition" = None.
Proof.
  intros Hopen Hmeta Hformat Hcsv Hcol.
  unfold parse_asc, parse_asc_with. rewrite Hopen, Hmeta, Hcsv.
  destruct (eval_rules_total metadata METADATA_MAP ∅ [])
    as (out & rt & Hrules); [apply Hformat|].
  rewrite Hrules.
  destruct (read_detectors_Ok metadata Hformat)
    as (dd & -> & Hd2 & Hd1 & Hd0 & Hdk).
  destruct (data_to_template_Ok data col Hcol) as (dt & -> & Hwl & Htr & Hdt).
  rewrite !bind_Ok. exists out. eexists. split; [reflexivity|].
  split; [by apply update_lookup_Some|]. split; [by apply update_lookup_Some|].
  split; [|split; [|split]].
  - eapply update_has_detector_old; [exact Hdt | intros Hin; not_key Hin |].
    by apply update_has_detector_new.
  - eapply update_has_detector_old; [exact Hdt | intros Hin; not_key Hin |].
    by apply update_has_detector_new.
  - eapply update_has_detector_old; [exact Hdt | intros Hin; not_key Hin |].
    by apply update_has_detector_new.
  - rewrite (update_lookup_other _ dt data_keys) by (done || intros Hin; not_key Hin).
    rewrite (update_lookup_other _ dd all_detector_keys)
      by (done || intros Hin; not_key Hin).
    apply eval_rules_Ok in Hrules as (_ & Hkeep & _); [|apply METADATA_MAP_NoDup].
    rewrite Hkeep; [done|]. intros Hin. not_key Hin.
Qed.

(** C8: for an existing [.asc] file whose preamble, the lines before the
    first line that is [#DATA] once Python's whitespace is stripped from
    it, has the expected format with at least 44 lines, and whose data
    block pandas reads with a first column of values, [read] returns, and
    the template has [/ENTRY[entry]/data/wavelength] and
    [/ENTRY[entry]/data/transmission] from the data block, the detectors PMT
    (as [detector2]), PbS ([detector1]) and InGaAs ([detector]) with their
    type, response time, slit and wavelength range, and
    [/ENTRY[entry]/definition] with the value ["NXtransmission"]. *)
Theorem read_asc (template : Template) file_path lines metadata rest data col :
  (splitext file_path).2 = ".asc" ->
  path_exists file_path = true ->
  open_lines file_path = Ok lines ->
  read_metadata lines = (metadata, rest) ->
  (44 <= length metadata)%nat ->
  expected_format metadata ->
  read_csv rest = Ok data ->
  values_col0 data = Ok col ->
  let run := read template [file_path] in
  raised run = None /\
  tmpl run !! "/ENTRY[entry]/data/wavelength" = Some (index_values data) /\
  tmpl run !! "/ENTRY[entry]/data/transmission" = Some col /\
  has_detector (tmpl run) "/ENTRY[entry]/instrument/DETECTOR[detector2]" "PMT" /\
  has_detector (tmpl run) "/ENTRY[entry]/instrument/DETECTOR[detector1]" "PbS" /\
  has_detector (tmpl run) "/ENTRY[entry]/instrument/DETECTOR[detector]" "InGaAs" /\
  tmpl run !! "/ENTRY[entry]/definition" = Some (VStr "NXtransmission").
Proof.
  intros Hext Hexists Hopen Hmeta _ Hformat Hcsv Hcol run.
  destruct (parse_asc_Ok _ _ _ _ _ _ Hopen Hmeta Hformat Hcsv Hcol)
    as (out & d & Hparse & Hwl & Htr & Hd2 & Hd1 & Hd0 & Hdef).
  assert (run = {| tmpl := update (set_fixed_keys template) d;
                   printed := out; raised := None |}) as ->.
  { unfold run, read. change (sorted [file_path] _) with [file_path].
    rewrite read_files_parse.
    - rewrite Hext. unfold extensions.
      rewrite !lookup_insert_ne, lookup_insert_eq by done. simpl.
      by rewrite Hparse.
    - unfold skipped. rewrite Hext, Hexists. intros [Hin|?]; [|done].
      apply Hin. unfold recognized. by in_list. }
  simpl. split; [done|].
  split; [by apply update_lookup_Some|]. split; [by apply update_lookup_Some|].
  repeat (split; [by apply update_has_detector_new|]).
  unfold update. rewrite lookup_union_r by done.
  unfold set_fixed_keys. by simplify_map_eq.
Qed.

End ReaderFacts.

(** ** The conversion routine *)

Section ConvertFacts.
Context `{Foreign} `{!Helpers} `{!Collaborators}.

(** C6, outside the template-dump mode: when [generate_template] is off and
    the name derived from the NXDL file name is not among the
    [supported_nxdls] of the selected reader, [convert] ends with an
    exception before it calls [read], validates or writes; when the schema
    file parses, the exception is the one with the message that the chosen
    NXDL is not supported by the selected reader. *)
Theorem convert_unsupported input_file reader nxdl output data_reader nxdl_name :
  get_reader reader = Ok data_reader ->
  re_search_nxdl_name nxdl = Some nxdl_name ->
  nxdl_name ∉ reader_supported_nxdls data_reader ->
  let run := convert input_file reader nxdl output false in
  (exists e, run.2 = Raise e) /\
  Forall (fun ev => touches_input ev = false) run.1 /\
  (forall nxdl_root, ET_parse nxdl = Ok nxdl_root ->
     run.2 = Raise (PyException
       "The chosen NXDL isn't supported by the selected reader.")).
Proof.
  intros Hreader Hname Hnot. unfold convert.
  destruct (ET_parse nxdl) as [nxdl_root|e]; simpl.
  - rewrite Hreader, Hname. rewrite decide_True by done. simpl.
    split; [by eexists|]. split; [by repeat constructor | done].
  - split; [by eexists|]. split; [by repeat constructor | done].
Qed.

End ConvertFacts.

(** ** The reader and the conversion routine on concrete files *)

Section ReaderExamples.
Existing Instance example_foreign.
Existing Instance example_mpars.
Existing Instance nxdl_helpers.

(** JSON files are read in the order of the arguments: the later one
    wins, so swapping the two arguments changes the template. *)
Lemma order_independent_counterexample :
  ~ @order_independent _ example_mpars (example_system ∅ conflicting_jsons).
Proof.
  intros Hoi.
  specialize (Hoi ∅ ["a.json"; "b.json"] ["b.json"; "a.json"] (perm_swap _ _ _)).
  apply (f_equal (fun run => tmpl run !! "/ENTRY[entry]/title")) in Hoi.
  by vm_compute in Hoi.
Qed.

Lemma read_order_independent_witness :
  let sys := example_system example_texts conflicting_jsons in
  let l1 := ["a.json"; "data.asc"] in
  let l2 := ["data.asc"; "a.json"] in
  l1 ≡ₚ l2 /\ NoDup ((fun f => (splitext f).2) <$> l1) /\
  @same_order_per_extension _ sys l1 l2 /\
  @read _ example_mpars sys ∅ l1 = @read _ example_mpars sys ∅ l2.
Proof.
  intros sys l1 l2.
  assert (l1 ≡ₚ l2) as Hperm by apply perm_swap.
  assert (NoDup ((fun f => (splitext f).2) <$> l1)) as Hnd.
  { apply (bool_decide_unpack _). by vm_compute. }
  assert (@same_order_per_extension _ sys l1 l2) as Hsame.
  { intros e. unfold l1, l2. rewrite !filter_cons, !filter_nil.
    change ((splitext "a.json").2) with ".json".
    change ((splitext "data.asc").2) with ".asc".
    destruct (decide (".json" = e)) as [<-|]; [done|].
    by destruct (decide (".asc" = e)). }
  destruct (@read_order_independent _ example_mpars sys ∅ l1 l2) as [Hone Htwo].
  split; [exact Hperm|]. split; [exact Hnd|]. split; [exact Hsame|].
  rewrite <- (Hone Hsame). exact (Htwo Hperm Hnd).
Defined.

Lemma eval_rules_yields_witness :
  let map := [("/ENTRY[entry]/SAMPLE[sample]/name", RInt 8);
              ("/ENTRY[entry]/instrument/SOURCE[source]/type", RStr "D2");
              ("/ENTRY[entry]/start_time", RFunction (line_at 3));
              ("/ENTRY[entry]/experiment_identifier", ROther "<class 'float'>" "1.5")] in
  NoDup map.*1 /\
  exists out after,
    eval_rules example_metadata map ∅ [] = (out, Ok after) /\
    Forall (rule_yields example_metadata ∅ after out) map.
Proof.
  intros map.
  assert (NoDup map.*1) as Hnd by (apply (bool_decide_unpack _); by vm_compute).
  split; [exact Hnd|].
  destruct (eval_rules_yields example_metadata map ∅ [] Hnd) as [Hruns Hyields].
  destruct (proj1 Hruns) as (out & after & Hrun).
  { repeat constructor; by eexists. }
  exists out, after. split; [exact Hrun|]. by apply Hyields.
Defined.

Lemma read_skips_files_witness :
  let sys := example_system example_texts ∅ in
  let run := @read _ example_mpars sys ∅ ["notes.csv"; "missing.json"] in
  @skipped _ sys "notes.csv" /\ @skipped _ sys "missing.json" /\
  raised run = None /\
  tmpl run = set_fixed_keys ∅ /\
  "WARNING: File notes.csv has an unsupported extension, ignoring file."
    ∈ printed run /\
  "WARNING: File missing.json does not exist, ignoring entry." ∈ printed run.
Proof.
  intros sys run.
  assert (@skipped _ sys "notes.csv") as Hcsv.
  { left. apply (bool_decide_unpack _). by vm_compute. }
  assert (@skipped _ sys "missing.json") as Hjson by by right.
  destruct (@read_skips_files _ example_mpars sys ∅ ["notes.csv"; "missing.json"])
    as (_ & _ & Hall & Hwarn).
  destruct Hall as [Htmpl Hraised]; [by repeat constructor|].
  split; [exact Hcsv|]. split; [exact Hjson|]. split; [exact Hraised|].
  split; [exact Htmpl|]. split.
  - apply (Hwarn Hraised "notes.csv"); [by in_list | exact Hcsv].
  - apply (Hwarn Hraised "missing.json"); [by in_list | exact Hjson].
Defined.

Lemma data_to_template_signal_witness :
  let sys := example_system example_texts ∅ in
  exists template,
    @data_to_template _ sys example_data = Ok template /\
    template !! "/ENTRY[entry]/data/@signal" = Some (VStr "transmission").
Proof.
  intros sys.
  destruct (@data_to_template_signal _ sys example_data) as [Hruns Hkeys].
  destruct (Hruns example_col) as [template Hrun]; [reflexivity|].
  exists template. split; [exact Hrun|]. by apply Hkeys.
Defined.

Lemma example_expected_format :
  @expected_format _ example_mpars (example_system example_texts ∅) example_metadata.
Proof.
  split; [vm_compute; lia|]. split.
  - repeat constructor; by eexists.
  - exists "3350/servo 1680/servo 860.8/2.00", "3350/0.2 1680/0.2 860.8/0.2",
      "3350/5.00 1680/2.50", "1680.4 860.8",
      ["servo"; "servo"; "2.00"],
      [Qmake 2 10; Qmake 2 10; Qmake 2 10], [Qmake 500 100; Qmake 250 100],
      [Qmake 16804 10; Qmake 8608 10].
    repeat (split; [by vm_compute|]).
    repeat (split; [simpl; lia|]).
    simpl. constructor; [by left|]. constructor; [by left|].
    constructor; [right; by eexists | constructor].
Defined.

Lemma read_asc_witness :
  let sys := example_system example_texts ∅ in
  let run := @read _ example_mpars sys ∅ ["data.asc"] in
  raised run = None /\
  has_detector (tmpl run) "/ENTRY[entry]/instrument/DETECTOR[detector2]" "PMT" /\
  tmpl run !! "/ENTRY[entry]/definition" = Some (VStr "NXtransmission").
Proof.
  intros sys run.
  destruct (@read_asc _ example_mpars sys ∅ "data.asc" example_asc
              example_metadata example_rest example_data example_col)
    as (Hraised & _ & _ & Hpmt & _ & _ & Hdef);
    [by vm_compute | by vm_compute | by vm_compute | by vm_compute
    | vm_compute; lia | exact example_expected_format
    | by vm_compute | by vm_compute |].
  split; [exact Hraised|]. split; [exact Hpmt | exact Hdef].
Defined.

(** A [#DATA] line behind a no-break space ends the preamble as well: with
    such a line as the ninth line of the file the preamble has eight lines
    and the read ends with an exception. *)
Example read_asc_early_marker :
  let lines := take 8 example_asc ++ [String "160" "#DATA"] ++ drop 9 example_asc in
  let sys := example_system {[ "data.asc" := lines ]} ∅ in
  length (read_metadata lines).1 = 8%nat /\
  is_Some (raised (@read _ example_mpars sys ∅ ["data.asc"])).
Proof. split; [by vm_compute | by apply (bool_decide_unpack _)]. Qed.

(** In the template-dump mode the reader is never looked at: a run with a
    schema the reader does not support returns. *)
Lemma unsupported_aborts_counterexample :
  ~ @unsupported_aborts _ nxdl_helpers (example_collaborators example_texts ∅).
Proof.
  intros Habort.
  destruct (Habort [] "transmission" "NXmx.nxdl.xml" "output.nxs" true
              (@READER _ example_mpars (example_system example_texts ∅)) "NXmx")
    as [e He]; [done | done | by apply (bool_decide_unpack _) |].
  by vm_compute in He.
Qed.

Lemma convert_unsupported_witness :
  let run := @convert _ nxdl_helpers (example_collaborators example_texts ∅)
               ["data.asc"] "transmission" "NXmx.nxdl.xml" "output.nxs" false in
  run.2 = Raise (PyException
    "The chosen NXDL isn't supported by the selected reader.") /\
  Forall (fun ev => touches_input ev = false) run.1.
Proof.
  intros run.
  destruct (@convert_unsupported _ nxdl_helpers
              (example_collaborators example_texts ∅)
              ["data.asc"] "transmission" "NXmx.nxdl.xml" "output.nxs"
              (@READER _ example_mpars (example_system example_texts ∅)) "NXmx")
    as (_ & Hev & Hexn); [done | done | by apply (bool_decide_unpack _) |].
  split; [by apply (Hexn example_nxdl) | exact Hev].
Defined.

(** A supported schema is converted: parse, load the reader, read,
    validate, write. *)
Example convert_example :
  let run := @convert _ nxdl_helpers (example_collaborators example_texts ∅)
               ["data.asc"] "transmission" "NXtransmission.nxdl.xml"
               "output.nxs" false in
  run.2 = Ok () /\
  touches_input <$> run.1 = [false; false; false; true; true; true; false].
Proof. by vm_compute. Qed.

End ReaderExamples.

(** ** The names of the readers *)

Lemma length_app_s (s t : string) :
  String.length (s +:+ t) = (String.length s + String.length t)%nat.
Proof. induction s as [|a s IH]; [done|]. rewrite app_cons. simpl. by rewrite IH. Qed.

Lemma prefix_app_same (u w : string) : String.prefix u (u +:+ w) = true.
Proof.
  induction u as [|a u IH]; [by destruct w|].
  rewrite app_cons. cbn [String.prefix]. by destruct (ascii_dec a a).
Qed.

Lemma substring_zero (i : nat) (s : string) : String.substring i 0 s = "".
Proof. revert i. induction s as [|a s IH]; intros [|i]; simpl; auto. Qed.

Lemma substring_skip (pre s : string) (i m : nat) :
  String.substring (String.length pre + i) m (pre +:+ s) = String.substring i m s.
Proof. induction pre as [|a pre IH]; [done|]. by rewrite app_cons. Qed.

Lemma substring_take (s w : string) :
  String.substring 0 (String.length s) (s +:+ w) = s.
Proof.
  induction s as [|a s IH]; [apply substring_zero|].
  rewrite app_cons. simpl. by rewrite IH.
Qed.

Lemma rfind_app (sub pre s : string) (j : nat) :
  rfind sub s = Some j -> rfind sub (pre +:+ s) = Some (String.length pre + j)%nat.
Proof.
  intros Hs. induction pre as [|a pre IH]; [done|].
  rewrite app_cons. simpl. by rewrite IH.
Qed.

Lemma py_in_prefix (sub s : string) :
  String.prefix sub s = true -> py_in sub s = true.
Proof. intros Hp. destruct s; simpl in *; by rewrite Hp. Qed.

Lemma py_in_app (sub pre post : string) : py_in sub (pre +:+ sub +:+ post) = true.
Proof.
  induction pre as [|a pre IH].
  - apply py_in_prefix. exact (prefix_app_same sub post).
  - rewrite app_cons. cbn [py_in]. rewrite IH. apply orb_true_r.
Qed.

Lemma py_in_slash_cons (a : ascii) (s : string) :
  py_in "/" (String a s) = false -> a ≠ "/"%char /\ py_in "/" s = false.
Proof.
  cbn [py_in String.prefix]. destruct (ascii_dec "/" a) as [<-|Hne].
  - by destruct s.
  - intros Hs. split; [done|]. by destruct s.
Qed.

(** Up to the first separator two strings without a separator agree. *)
Lemma prefix_to_slash (u name w : string) :
  py_in "/" u = false -> py_in "/" name = false ->
  String.prefix (u +:+ "/") (name +:+ "/" +:+ w) = true -> u = name.
Proof.
  revert name. induction u as [|a u IH]; intros [|b name] Hu Hname.
  - done.
  - apply py_in_slash_cons in Hname as [Hb _].
    rewrite app_cons. change ("" +:+ "/") with "/". cbn [String.prefix].
    by destruct (ascii_dec "/" b).
  - apply py_in_slash_cons in Hu as [Ha _].
    rewrite app_cons. change ("" +:+ "/" +:+ w) with (String "/" w).
    cbn [String.prefix]. by destruct (ascii_dec a "/").
  - apply py_in_slash_cons in Hu as [_ Hu].
    apply py_in_slash_cons in Hname as [_ Hname].
    rewrite !app_cons. cbn [String.prefix].
    destruct (ascii_dec a b) as [->|]; [|done].
    intros Hp. f_equal. by apply IH.
Qed.

Lemma py_endswith_app (p suffix : string) : py_endswith (p +:+ suffix) suffix = true.
Proof.
  unfold py_endswith. rewrite length_app_s.
  replace (String.length p + String.length suffix - String.length suffix)%nat
    with (String.length p + 0)%nat by lia.
  rewrite substring_skip.
  pose proof (substring_take suffix "") as Hs. rewrite app_empty_r in Hs.
  rewrite Hs, bool_decide_true by done. rewrite andb_true_r.
  apply Nat.leb_le. lia.
Qed.

Lemma plain_reader_name_end (name : string) :
  plain_reader_name name -> forall p, name ≠ p +:+ "readers".
Proof. intros [_ Hend] p ->. by rewrite py_endswith_app in Hend. Qed.

Lemma rfind_no_readers (name : string) :
  py_in "/" name = false -> (forall p, name ≠ p +:+ "readers") ->
  rfind "readers/" (name +:+ "/reader.py") = None.
Proof.
  intros Hslash Hend. induction name as [|a name IH]; [done|].
  rewrite app_cons. cbn [rfind]. rewrite IH.
  - destruct (String.prefix "readers/" (String a (name +:+ "/reader.py")))
      eqn:Hp; [|done].
    apply (prefix_to_slash "readers" (String a name) "reader.py") in Hp;
      [|done..].
    by destruct (Hend "").
  - by apply py_in_slash_cons in Hslash as [_ ?].
  - intros p ->. by apply (Hend (String a p)).
Qed.

Lemma rfind_plain_name (name : string) :
  plain_reader_name name -> rfind "readers/" (name +:+ "/reader.py") = None.
Proof.
  intros Hname. apply rfind_no_readers; [apply Hname|].
  by apply plain_reader_name_end.
Qed.

Lemma rfind_reader_file (dir name : string) :
  plain_reader_name name ->
  rfind "readers/" (reader_file (dir, name)) = Some (String.length dir).
Proof.
  intros Hname. unfold reader_file. simpl.
  rewrite <- (Nat.add_0_r (String.length dir)). apply rfind_app.
  change ("readers/" +:+ name +:+ "/reader.py")
    with (String "r" (String "e" (String "a" (String "d" (String "e"
           (String "r" (String "s" (String "/" (name +:+ "/reader.py"))))))))).
  cbn [rfind]. rewrite (rfind_plain_name name Hname). simpl.
  by destruct (name +:+ "/reader.py").
Qed.

Lemma rfind_last_sep (pre : string) :
  rfind "/" (pre +:+ "/reader.py") = Some (String.length pre).
Proof.
  rewrite <- (Nat.add_0_r (String.length pre)). by apply rfind_app.
Qed.

Lemma py_slice_middle (pre name w : string) :
  py_slice (pre +:+ name +:+ w) (String.length pre) (String.length (pre +:+ name))
  = name.
Proof.
  unfold py_slice. rewrite length_app_s.
  replace (String.length pre + String.length name - String.length pre)%nat
    with (String.length name) by lia.
  rewrite <- (Nat.add_0_r (String.length pre)) at 1.
  rewrite substring_skip. apply substring_take.
Qed.

(** The loop finds the directory name of a plain reader. *)
Lemma add_reader_name_plain all_readers dir name :
  plain_reader_name name ->
  py_in "/base/" (reader_file (dir, name)) = false ->
  add_reader_name "/" all_readers (reader_file (dir, name))
  = Ok (all_readers ++ [name]).
Proof.
  intros Hname Hbase. unfold add_reader_name, py_rindex.
  change ("/" +:+ "base" +:+ "/") with "/base/".
  change ("readers" +:+ "/") with "readers/".
  rewrite Hbase, (rfind_reader_file dir name Hname). cbn [negb].
  rewrite bind_Ok.
  assert (reader_file (dir, name)
          = ((dir +:+ "readers/") +:+ name) +:+ "/reader.py") as Hfile.
  { unfold reader_file. cbn [fst snd]. by rewrite !app_assoc_s. }
  rewrite Hfile at 1. rewrite rfind_last_sep, bind_Ok. do 2 f_equal.
  rewrite <- length_app_s, Hfile, (app_assoc_s (dir +:+ "readers/")).
  by rewrite py_slice_middle.
Qed.

Lemma for_each_app {A S} (body : S -> A -> Result S) (s : S) (l1 l2 : list A) :
  for_each body s (l1 ++ l2) = (s' ← for_each body s l1; for_each body s' l2).
Proof.
  revert s. induction l1 as [|a l1 IH]; intros s; [done|].
  cbn [for_each app]. destruct (body s a) as [s'|e]; [|done].
  rewrite !bind_Ok. apply IH.
Qed.

Lemma get_names_plain_from all_readers (readers : list (string * string)) :
  Forall (fun dn => plain_reader_name dn.2 /\
                    py_in "/base/" (reader_file dn) = false) readers ->
  for_each (add_reader_name "/") all_readers (reader_file <$> readers)
  = Ok (all_readers ++ readers.*2).
Proof.
  intros Hall. revert all_readers.
  induction Hall as [|[dir name] readers [Hname Hbase] _ IH]; intros all_readers.
  - by rewrite app_nil_r.
  - rewrite !fmap_cons. cbn [for_each].
    rewrite (add_reader_name_plain _ dir name Hname Hbase), bind_Ok, IH.
    by rewrite <- app_assoc.
Qed.

(** X1: when every file that [glob] found is [<dir>readers/<name>/reader.py]
    with no [/base/] in it and a directory name without separator that does
    not end with [readers], [get_names_of_all_readers] returns exactly the
    directory names, in the order of the files. *)
Theorem get_names_of_all_readers_plain (readers : list (string * string)) :
  Forall (fun dn => plain_reader_name dn.2 /\
                    py_in "/base/" (reader_file dn) = false) readers ->
  get_names_of_all_readers "/" (reader_file <$> readers) = Ok readers.*2.
Proof. intros Hall. by apply (get_names_plain_from []). Qed.

Lemma add_reader_name_base all_readers (pre post : string) :
  add_reader_name "/" all_readers (pre +:+ "/base/" +:+ post) = Ok all_readers.
Proof.
  unfold add_reader_name. change ("/" +:+ "base" +:+ "/") with "/base/".
  by rewrite py_in_app.
Qed.

(** X2: a file with [/base/] anywhere in its path, the reader directory
    [base] or any directory of that name above it, adds no name: the list of
    names is the one for the other files. *)
Theorem get_names_of_all_readers_base (files1 files2 : list string) (pre post : string) :
  get_names_of_all_readers "/" (files1 ++ [pre +:+ "/base/" +:+ post] ++ files2)
  = get_names_of_all_readers "/" (files1 ++ files2).
Proof.
  unfold get_names_of_all_readers. rewrite !for_each_app.
  destruct (for_each (add_reader_name "/") [] files1) as [names|e]; [|done].
  rewrite !bind_Ok. cbn [for_each app].
  by rewrite add_reader_name_base, bind_Ok.
Qed.

(** X3: a reader directory whose name ends with [readers] is listed under
    the empty name: the last [readers/] of the path is then the end of the
    directory name, and the slice from behind it to the last separator is
    empty. *)
Theorem get_names_of_all_readers_suffix (dir p : string) :
  py_in "/base/" (reader_file (dir, p +:+ "readers")) = false ->
  get_names_of_all_readers "/" [reader_file (dir, p +:+ "readers")] = Ok [""].
Proof.
  intros Hbase. unfold get_names_of_all_readers. cbn [for_each].
  unfold add_reader_name, py_rindex.
  change ("/" +:+ "base" +:+ "/") with "/base/".
  change ("readers" +:+ "/") with "readers/".
  rewrite Hbase. cbn [negb].
  assert (reader_file (dir, p +:+ "readers")
          = (dir +:+ "readers/" +:+ p) +:+ "readers/reader.py") as Hfile.
  { unfold reader_file. cbn [fst snd]. by rewrite !app_assoc_s. }
  assert (reader_file (dir, p +:+ "readers")
          = ((dir +:+ "readers/" +:+ p) +:+ "readers") +:+ "/reader.py") as Hfile'.
  { unfold reader_file. cbn [fst snd]. by rewrite !app_assoc_s. }
  rewrite Hfile at 1.
  rewrite (rfind_app "readers/" _ "readers/reader.py" 0) by done.
  rewrite bind_Ok. rewrite Hfile' at 1. rewrite rfind_last_sep, !bind_Ok.
  cbn [app]. do 2 f_equal. unfold py_slice.
  rewrite (length_app_s _ "readers").
  change (String.length "readers/") with 8%nat.
  change (String.length "readers") with 7%nat.
  replace (String.length (dir +:+ "readers/" +:+ p) + 7
           - (String.length (dir +:+ "readers/" +:+ p) + 0 + 8))%nat
    with 0%nat by lia.
  apply substring_zero.
Qed.

(** ** The schema name in the file name *)

Lemma re_search_not_N (c : ascii) (s : string) :
  c ≠ "N"%char -> re_search_nxdl_name (String c s) = re_search_nxdl_name s.
Proof.
  intros Hc. destruct c as [[] [] [] [] [] [] [] []]; try reflexivity.
  by destruct Hc.
Qed.

Lemma re_search_N_end : re_search_nxdl_name "N" = None.
Proof. reflexivity. Qed.

Lemma re_search_N_not_X (d : ascii) (s : string) :
  d ≠ "X"%char ->
  re_search_nxdl_name (String "N" (String d s)) = re_search_nxdl_name (String d s).
Proof.
  intros Hd. destruct d as [[] [] [] [] [] [] [] []]; try reflexivity.
  by destruct Hd.
Qed.

Lemma re_search_NX (t : string) :
  re_search_nxdl_name (String "N" (String "X" t))
  = match match_name_tail t with
    | Some m => Some ("NX" +:+ m)
    | None => re_search_nxdl_name (String "X" t)
    end.
Proof. reflexivity. Qed.

(** What [[a-z_]*(?=.nxdl.xml)] matches at the head of a string. *)
Lemma match_name_tail_Some (t m : string) :
  match_name_tail t = Some m ->
  exists post, t = m +:+ post /\ name_chars m = true /\ lookahead post = true.
Proof.
  revert m. induction t as [|c t IH]; intros m; [done|].
  cbn [match_name_tail].
  destruct (is_lower_or_underscore c) eqn:Hc.
  - destruct (match_name_tail t) as [m'|] eqn:Ht.
    + intros [= <-]. destruct (IH m' eq_refl) as (post & -> & Hm & Hpost).
      exists post. split; [done|]. split; [|done]. cbn [name_chars].
      by rewrite Hc, Hm.
    + destruct (lookahead (String c t)) eqn:Hl; [|done].
      intros [= <-]. by exists (String c t).
  - destruct (lookahead (String c t)) eqn:Hl; [|done].
    intros [= <-]. by exists (String c t).
Qed.

(** X4: the name [convert] derives from the NXDL file name is [NX] followed
    by letters [a-z] and underscores only; it stands in the file name, and
    what follows it there is any character but a newline, [nxdl], any
    character but a newline, [xml]. *)
Theorem re_search_nxdl_name_sound (nxdl nxdl_name : string) :
  re_search_nxdl_name nxdl = Some nxdl_name ->
  exists pre m post,
    nxdl = pre +:+ "NX" +:+ m +:+ post /\ nxdl_name = "NX" +:+ m /\
    name_chars m = true /\ lookahead post = true.
Proof.
  revert nxdl_name. induction nxdl as [|c s IH]; intros nxdl_name; [done|].
  assert (re_search_nxdl_name s = Some nxdl_name ->
          exists pre m post, String c s = pre +:+ "NX" +:+ m +:+ post /\
            nxdl_name = "NX" +:+ m /\ name_chars m = true /\
            lookahead post = true) as Hrest.
  { intros (pre & m & post & -> & Hrest)%IH. by exists (String c pre), m, post. }
  destruct (decide (c = "N"%char)) as [->|Hc];
    [|by rewrite re_search_not_N].
  destruct s as [|d t]; [done|].
  destruct (decide (d = "X"%char)) as [->|Hd];
    [|by rewrite re_search_N_not_X].
  rewrite re_search_NX.
  destruct (match_name_tail t) as [m|] eqn:Ht; [|done].
  intros [= <-]. apply match_name_tail_Some in Ht as (post & -> & Hm & Hpost).
  by exists "", m, post.
Qed.

Lemma match_name_tail_standard (name : string) :
  name_chars name = true -> match_name_tail (name +:+ ".nxdl.xml") = Some name.
Proof.
  induction name as [|c name IH]; [done|].
  cbn [name_chars]. intros [Hc Hname]%andb_true_iff.
  rewrite app_cons. cbn [match_name_tail]. by rewrite Hc, IH.
Qed.

Lemma py_in_NX_cons (c : ascii) (s : string) :
  py_in "NX" (String c s) = false ->
  String.prefix "NX" (String c s) = false /\ py_in "NX" s = false.
Proof. cbn [py_in]. by intros [? ?]%orb_false_iff. Qed.

(** X5: for a file name [<dir>NX<name>.nxdl.xml] with [<name>] made of
    letters [a-z] and underscores, and no [NX] in [<dir>], the name derived
    is [NX<name>]. *)
Theorem re_search_nxdl_name_standard (dir name : string) :
  py_in "NX" dir = false -> name_chars name = true ->
  re_search_nxdl_name (dir +:+ "NX" +:+ name +:+ ".nxdl.xml") = Some ("NX" +:+ name).
Proof.
  intros Hdir Hname. induction dir as [|c dir IH].
  - change ("" +:+ "NX" +:+ name +:+ ".nxdl.xml")
      with (String "N" (String "X" (name +:+ ".nxdl.xml"))).
    by rewrite re_search_NX, match_name_tail_standard.
  - apply py_in_NX_cons in Hdir as [Hp Hdir]. rewrite app_cons.
    destruct (decide (c = "N"%char)) as [->|Hc];
      [|by rewrite re_search_not_N; auto].
    destruct dir as [|d dir].
    + change ("" +:+ "NX" +:+ name +:+ ".nxdl.xml")
        with (String "N" (String "X" (name +:+ ".nxdl.xml"))).
      rewrite re_search_N_not_X by done. by apply IH.
    + rewrite app_cons. rewrite re_search_N_not_X; [rewrite <- app_cons; by apply IH|].
      intros ->. cbn [String.prefix] in Hp.
      destruct (ascii_dec "N" "N"); [|done]. destruct (ascii_dec "X" "X"); [|done].
      by destruct dir.
Qed.

(** ** More on the conversion routine *)

Section ConvertMore.
Context `{Foreign} `{!Helpers} `{!Collaborators}.

(** X6: in the template-dump mode, once the schema file parses, [convert]
    returns normally after logging the template: the reader is not loaded,
    and nothing is read, validated or written, whatever the reader name and
    the input files are.  The template logged has the keys of the generated
    template, each with the string ["None"]. *)
Theorem convert_generate_template input_file reader nxdl output nxdl_root :
  ET_parse nxdl = Ok nxdl_root ->
  let run := convert input_file reader nxdl output true in
  run.2 = Ok () /\
  exists template : Template,
    run.1 = [EParseNxdl nxdl; EInfoTemplate template] /\
    dom template = dom (generate_template_from_nxdl nxdl_root ∅ None) /\
    forall k v, template !! k = Some v -> v = VStr "None".
Proof.
  intros Hparse. unfold convert. rewrite Hparse. cbn [fst snd].
  split; [done|]. eexists. split; [reflexivity|]. split.
  - apply dom_fmap_L.
  - intros k v. rewrite lookup_fmap.
    destruct (generate_template_from_nxdl nxdl_root ∅ None !! k); by intros [= <-].
Qed.

(** X7: when no part of the NXDL file name has the form a schema name is
    derived from, [convert] (not in the template-dump mode) loads the reader
    and then ends with an [AttributeError], before anything is read. *)
Theorem convert_no_name input_file reader nxdl output nxdl_root data_reader :
  ET_parse nxdl = Ok nxdl_root ->
  get_reader reader = Ok data_reader ->
  re_search_nxdl_name nxdl = None ->
  let run := convert input_file reader nxdl output false in
  run.2 = Raise AttributeError /\
  EGetReader reader ∈ run.1 /\
  Forall (fun ev => touches_input ev = false) run.1.
Proof.
  intros Hparse Hreader Hname. unfold convert.
  rewrite Hparse, Hreader, Hname. cbn [fst snd].
  split; [done|]. split; [by in_list | by repeat constructor].
Qed.

Lemma no_write_printed (lines : list string) :
  Forall (fun ev => is_write ev = false) (EPrint <$> lines).
Proof. apply Forall_fmap, Forall_forall. by intros line _. Qed.

Lemma no_write_elem (evs : list Event) nxdl_path output_path :
  Forall (fun ev => is_write ev = false) evs ->
  EWrite nxdl_path output_path ∉ evs.
Proof. intros Hall Hin. rewrite Forall_forall in Hall. by apply Hall in Hin. Qed.

Ltac no_write :=
  rewrite ?Forall_app; repeat split;
  try apply no_write_printed; by repeat constructor.

(** X8: [convert] calls the writer only after the reader has returned
    without an exception and the validation of what it returned has passed,
    and then with the NXDL path and the output path it was given. *)
Theorem convert_writes_validated input_file reader nxdl output generate_template
    nxdl_path output_path :
  let run := convert input_file reader nxdl output generate_template in
  EWrite nxdl_path output_path ∈ run.1 ->
  generate_template = false /\ nxdl_path = nxdl /\ output_path = output /\
  exists nxdl_root data_reader,
    ET_parse nxdl = Ok nxdl_root /\ get_reader reader = Ok data_reader /\
    let template : Template := generate_template_from_nxdl nxdl_root ∅ None in
    let read_run := reader_read data_reader template input_file in
    raised read_run = None /\
    validate_data_dict template (tmpl read_run) nxdl_root = Ok ().
Proof.
  unfold convert.
  destruct (ET_parse nxdl) as [nxdl_root|e]; cbn [fst];
    [|intros []%no_write_elem; no_write].
  destruct generate_template; cbn [fst]; [intros []%no_write_elem; no_write|].
  destruct (get_reader reader) as [data_reader|e]; cbn [fst];
    [|intros []%no_write_elem; no_write].
  destruct (re_search_nxdl_name nxdl) as [nxdl_name|]; cbn [fst];
    [|intros []%no_write_elem; no_write].
  destruct (decide (nxdl_name ∉ reader_supported_nxdls data_reader)); cbn [fst];
    [intros []%no_write_elem; no_write|].
  set (template := generate_template_from_nxdl nxdl_root ∅ None).
  set (read_run := reader_read data_reader template input_file).
  destruct (raised read_run) as [e|] eqn:Hraised; cbn [fst];
    [intros []%no_write_elem; no_write|].
  destruct (validate_data_dict template (tmpl read_run) nxdl_root) as [[]|e]
    eqn:Hvalid; cbn [fst]; [|intros []%no_write_elem; no_write].
  intros Hw.
  assert (EWrite nxdl_path output_path = EWrite nxdl output) as [= -> ->].
  { destruct (Writer_write (tmpl read_run) nxdl output) as [[]|e]; cbn [fst] in Hw.
    - apply elem_of_app in Hw as [Hw|Hw];
        [|by apply list_elem_of_singleton in Hw].
      apply elem_of_app in Hw as [Hw|Hw];
        [|by apply list_elem_of_singleton in Hw].
      exfalso. revert Hw. apply no_write_elem. no_write.
    - apply elem_of_app in Hw as [Hw|Hw];
        [|by apply list_elem_of_singleton in Hw].
      exfalso. revert Hw. apply no_write_elem. no_write. }
  repeat split. by exists nxdl_root, data_reader.
Qed.

End ConvertMore.

(** ** More on the schema tree walker *)

Section WalkerMore.
Context `{Foreign} `{!Helpers}.


Lemma write_all_twice (ks : list string) (template : Template) :
  write_all ks (write_all ks template) = write_all ks template.
Proof.
  apply map_eq. intros k. rewrite !write_all_lookup.
  by destruct (decide (k ∈ ks)).
Qed.

(** X9: generating the template a second time from the same schema, into
    the template the first run returned, changes nothing. *)
Theorem generate_template_from_nxdl_twice root (template : Template) path :
  generate_template_from_nxdl root
    (generate_template_from_nxdl root template path) path
  = generate_template_from_nxdl root template path.
Proof.
  destruct path as [path|]; cbn [generate_template_from_nxdl];
    rewrite !walk_written; apply write_all_twice.
Qed.


Lemma chain_to_nonempty root l n : chain_to root l n -> exists l', l = root :: l'.
Proof. intros [r|r c l' n' _ _]; by eexists. Qed.

(** X11: every key a walk adds lies below the path it started with: it is
    that path, a slash, and more; on a first call it starts with a slash. *)
Theorem generate_template_from_nxdl_below root (template : Template) path k :
  k ∈ dom (generate_template_from_nxdl root template path) ->
  k ∉ dom template ->
  exists rest, k = default "" path +:+ "/" +:+ rest.
Proof.
  set (start := match path with None => get_first_group root | Some _ => root end).
  assert (generate_template_from_nxdl root template path
          = walk start template (default "" path)) as -> by by destruct path.
  rewrite walk_written, !elem_of_dom, write_all_lookup.
  destruct (decide (k ∈ written start (default "" path))) as [Hk|Hk]; [|done].
  intros _ _. apply elem_of_written in Hk
    as [(l & n & Hchain & _ & _ & ->)|(l & n & Hchain & _ & _ & _ & ->)];
    apply chain_to_nonempty in Hchain as [l' ->]; cbn [join_segments].
  - by eexists.
  - eexists. by rewrite !app_assoc_s.
Qed.

End WalkerMore.

(** ** More on the transmission reader: detector lines *)

Lemma mapM_Ok_iff {A B} (f : A -> Result B) (l : list A) (k : list B) :
  mapM f l = Ok k <-> Forall2 (fun x y => f x = Ok y) l k.
Proof.
  revert k. induction l as [|x l IH]; intros k.
  - cbn. split; [by intros [= <-]; constructor | by intros ->%Forall2_nil_inv_l].
  - cbn [mapM]. split.
    + destruct (f x) as [y|e] eqn:Hx; [|done]. rewrite bind_Ok.
      destruct (mapM f l) as [k'|e] eqn:Hl; [|done]. rewrite bind_Ok.
      intros [= <-]. constructor; [done|]. by apply IH.
    + intros (y & k' & Hx & Hl & ->)%Forall2_cons_inv_l.
      apply IH in Hl. by rewrite Hx, bind_Ok, Hl, bind_Ok.
Qed.

Lemma mapM_Raise {A B} (f : A -> Result B) (l : list A) (e : Exn) :
  mapM f l = Raise e ->
  exists l1 x l2, l = l1 ++ x :: l2 /\ f x = Raise e /\
    Forall (fun x => exists y, f x = Ok y) l1.
Proof.
  induction l as [|x l IH]; [done|]. cbn [mapM].
  destruct (f x) as [y|e'] eqn:Hx.
  - rewrite bind_Ok. destruct (mapM f l) as [k'|e'] eqn:Hl; [done|].
    intros [= ->]. destruct (IH eq_refl) as (l1 & x' & l2 & -> & Hx' & Hl1).
    exists (x :: l1), x', l2. repeat split; [done|]. constructor; [by eexists|done].
  - intros [= ->]. by exists [], x, l.
Qed.

Lemma py_in_slash_cons_eq (a : ascii) (s : string) :
  py_in "/" (String a s) = bool_decide (a = "/"%char) || py_in "/" s.
Proof.
  cbn [py_in String.prefix]. destruct (ascii_dec "/" a) as [<-|Hne].
  - by destruct s.
  - rewrite bool_decide_false by done. by destruct s.
Qed.

Lemma py_in_slash_snoc (cur : string) (a : ascii) :
  py_in "/" cur = false -> a ≠ "/"%char ->
  py_in "/" (cur +:+ String a "") = false.
Proof.
  intros Hcur Ha. induction cur as [|c cur IH].
  - change ("" +:+ String a "") with (String a "").
    rewrite py_in_slash_cons_eq. by rewrite bool_decide_false.
  - rewrite app_cons, py_in_slash_cons_eq. rewrite py_in_slash_cons_eq in Hcur.
    apply orb_false_iff in Hcur as [-> Hcur]. by rewrite IH.
Qed.

Lemma split_on_go_nonempty sep s cur : split_on_go sep s cur ≠ [].
Proof.
  revert cur. induction s as [|a s IH]; intros cur; cbn [split_on_go]; [done|].
  destruct (decide (a = sep)); [done | apply IH].
Qed.

Lemma last_cons_nonempty {A} (x d : A) (l : list A) :
  l ≠ [] -> List.last (x :: l) d = List.last l d.
Proof. by destruct l. Qed.

(** The last field of a split has no separator in it. *)
Lemma split_on_go_last_no_slash s cur :
  py_in "/" cur = false ->
  py_in "/" (List.last (split_on_go "/" s cur) "") = false.
Proof.
  revert cur. induction s as [|a s IH]; intros cur Hcur; cbn [split_on_go];
    [done|].
  destruct (decide (a = "/"%char)) as [->|Ha].
  - rewrite last_cons_nonempty by apply split_on_go_nonempty. by apply IH.
  - by apply IH, py_in_slash_snoc.
Qed.

(** A string without separator is its own only field. *)
Lemma split_on_go_no_slash s cur :
  py_in "/" s = false -> split_on_go "/" s cur = [cur +:+ s].
Proof.
  revert cur. induction s as [|a s IH]; intros cur Hs; cbn [split_on_go].
  - by rewrite app_empty_r.
  - rewrite py_in_slash_cons_eq in Hs. apply orb_false_iff in Hs as [Ha Hs].
    apply bool_decide_eq_false in Ha. rewrite decide_False by done.
    rewrite IH by done. by rewrite app_assoc_s.
Qed.

Section DetectorLines.
Context `{Foreign} `{!Mpars} `{!System}.

(** X12: without a conversion [parse_detector_line] never raises; it
    returns one setting for each whitespace-separated token of the line, in
    order, no setting has a slash in it, and a token without a slash is its
    own setting. *)
Theorem parse_detector_line_plain (line : string) :
  exists settings,
    parse_detector_line line Ok = Ok settings /\
    settings = setting_of <$> py_split line /\
    Forall (fun s => py_in "/" s = false) settings /\
    forall i token, py_split line !! i = Some token ->
      py_in "/" token = false -> settings !! i = Some token.
Proof.
  exists (setting_of <$> py_split line). split; [|split; [done|split]].
  - unfold parse_detector_line. apply mapM_Ok_iff.
    apply Forall2_fmap_r, Forall_Forall2_diag, Forall_forall. by intros.
  - apply Forall_fmap, Forall_forall. intros token _.
    by apply split_on_go_last_no_slash.
  - intros i token Hi Htoken. rewrite list_lookup_fmap, Hi. cbn.
    unfold setting_of, py_split_on. by rewrite split_on_go_no_slash.
Qed.

(** With a conversion, [parse_detector_line] returns exactly when the
    conversion accepts the setting of every token, and then the converted
    settings in order; otherwise it raises what the conversion raises for
    the first setting it does not accept. *)
Lemma parse_detector_line_convert {A} (line : string)
    (convert : string -> Result A) :
  (forall values, parse_detector_line line convert = Ok values <->
     Forall2 (fun token v => convert (setting_of token) = Ok v)
             (py_split line) values) /\
  (forall e, parse_detector_line line convert = Raise e ->
     exists before token after,
       py_split line = before ++ token :: after /\
       convert (setting_of token) = Raise e /\
       Forall (fun token => exists v, convert (setting_of token) = Ok v) before).
Proof.
  split.
  - intros values. apply mapM_Ok_iff.
  - intros e. apply mapM_Raise.
Qed.

End DetectorLines.

(** ** More on the transmission reader: detectors *)

Ltac lookup_none :=
  repeat (rewrite lookup_insert_ne by key_ne); apply lookup_empty.

Section DetectorMore.
Context `{Foreign} `{!Mpars} `{!System}.

(** X13: [convert_detector_to_template] raises only for a slit that is not
    the servo and that [float] does not accept, and then what [float]
    raises. *)
Theorem convert_detector_to_template_raises
    det_type slit time gain det_idx wavelength_range e :
  convert_detector_to_template det_type slit time gain det_idx wavelength_range
    = Raise e
  <-> slit ≠ "servo" /\ float slit = Raise e.
Proof.
  unfold convert_detector_to_template.
  destruct (decide (slit = "servo")) as [Hs|Hs].
  - rewrite bind_Ok. split; [done | by intros [? _]].
  - destruct (float slit) as [x|e'].
    + rewrite !bind_Ok. split; [done | by intros [_ ?]].
    + split; [by intros [= ->] | by intros [_ [= ->]]].
Qed.

(** X14: the dictionary of a detector.  It has the type, the response time
    and the wavelength range; the gain exactly when one is given; for the
    servo slit the slit type ["servo"] and no gap; for another slit the
    type ["fixed"], the gap [float] reads from it and the unit ["nm"]. *)
Theorem convert_detector_to_template_entries
    det_type slit time gain det_idx wavelength_range (d : Template) :
  convert_detector_to_template det_type slit time gain det_idx wavelength_range
    = Ok d ->
  let path := detector_path det_idx in
  d !! (path +:+ "/type") = Some (VStr det_type) /\
  d !! (path +:+ "/response_time") = Some (VFloat time) /\
  d !! (path +:+ "/wavelength_range") = Some (VList wavelength_range) /\
  d !! (path +:+ "/gain") = VFloat <$> gain /\
  (slit = "servo" ->
     d !! (path +:+ "/slit/type") = Some (VStr "servo") /\
     d !! (path +:+ "/slit/x_gap") = None /\
     d !! (path +:+ "/slit/x_gap/@units") = None) /\
  (slit ≠ "servo" ->
     exists x_gap, float slit = Ok x_gap /\
       d !! (path +:+ "/slit/type") = Some (VStr "fixed") /\
       d !! (path +:+ "/slit/x_gap") = Some (VFloat x_gap) /\
       d !! (path +:+ "/slit/x_gap/@units") = Some (VStr "nm")).
Proof.
  intros Hd path. unfold convert_detector_to_template in Hd.
  fold (detector_path det_idx) in Hd. fold path in Hd.
  destruct (decide (slit = "servo")) as [Hs|Hs].
  - rewrite !bind_Ok in Hd. injection Hd as <-.
    destruct gain as [gain|]; cbn [fmap option_fmap option_map];
      (repeat split; [by lookup_key | by lookup_key | by lookup_key | ..]);
      try (by lookup_key); try (by lookup_none);
      try (intros _; repeat split; [by lookup_key | by lookup_none..]);
      done.
  - destruct (float slit) as [x|e]; [|done]. rewrite !bind_Ok in Hd.
    injection Hd as <-.
    destruct gain as [gain|]; cbn [fmap option_fmap option_map];
      (repeat split; [by lookup_key | by lookup_key | by lookup_key | ..]);
      try (by lookup_key); try (by lookup_none); try done;
      intros _; exists x; repeat split; by lookup_key.
Qed.

Lemma convert_detector_range_gain
    det_type slit time gain det_idx wavelength_range (d : Template) :
  convert_detector_to_template det_type slit time gain det_idx wavelength_range
    = Ok d ->
  d !! (detector_path det_idx +:+ "/wavelength_range")
    = Some (VList wavelength_range) /\
  d !! (detector_path det_idx +:+ "/gain") = VFloat <$> gain /\
  (forall k, k ∈ detector_keys (detector_path det_idx) \/ d !! k = None).
Proof.
  intros Hd.
  assert (slit_ok slit) as Hslit.
  { unfold convert_detector_to_template in Hd. unfold slit_ok.
    destruct (decide (slit = "servo")); [by left|]. right.
    destruct (float slit) as [x|e]; [by eexists | done]. }
  destruct (convert_detector_Ok det_type slit time gain det_idx wavelength_range
              Hslit) as (d' & Hd' & _ & Hkeys).
  rewrite Hd in Hd'. injection Hd' as <-. split; [|split; [|done]];
    unfold convert_detector_to_template in Hd;
    fold (detector_path det_idx) in Hd;
    (destruct (decide (slit = "servo"));
     [|destruct (float slit); [|done]]);
    rewrite !bind_Ok in Hd; injection Hd as <-;
    destruct gain; cbn [fmap option_fmap option_map];
    (by lookup_key) || by lookup_none.
Qed.

Lemma py_getitem_out {A} (l : list A) (i : Z) :
  (Z.of_nat (length l) <= i)%Z -> py_getitem l i = Raise IndexError.
Proof.
  intros Hi. unfold py_getitem.
  destruct (Z.ltb_spec i 0); [lia|].
  destruct (Z.ltb_spec i 0); [lia|].
  by destruct (Z.leb_spec (Z.of_nat (length l)) i); [|lia].
Qed.

(** X15: for a preamble whose line 43 has exactly two wavelengths of
    detector change, [a] and then [b], the three wavelength ranges tile the
    range of the instrument: PMT from the minimum to [b], PbS from [b] to
    [a], InGaAs from [a] to the maximum.  PbS and InGaAs get the second and
    the first gain of line 35, PMT gets no gain. *)
Theorem read_detectors_ranges metadata l31 l32 l35 l43
    s0 s1 s2 slits t0 t1 t2 times g0 g1 gains a b :
  metadata !! 31%nat = Some l31 ->
  parse_detector_line l31 Ok = Ok (s0 :: s1 :: s2 :: slits) ->
  metadata !! 32%nat = Some l32 ->
  parse_detector_line l32 float = Ok (t0 :: t1 :: t2 :: times) ->
  metadata !! 35%nat = Some l35 ->
  parse_detector_line l35 float = Ok (g0 :: g1 :: gains) ->
  metadata !! 43%nat = Some l43 ->
  mapM float (py_split l43) = Ok [a; b] ->
  slit_ok s0 -> slit_ok s1 -> slit_ok s2 ->
  exists d : Template,
    read_detectors metadata = Ok d /\
    d !! "/ENTRY[entry]/instrument/DETECTOR[detector2]/wavelength_range"
      = Some (VList [MIN_WAVELENGTH; VFloat b]) /\
    d !! "/ENTRY[entry]/instrument/DETECTOR[detector1]/wavelength_range"
      = Some (VList [VFloat b; VFloat a]) /\
    d !! "/ENTRY[entry]/instrument/DETECTOR[detector]/wavelength_range"
      = Some (VList [VFloat a; MAX_WAVELENGTH]) /\
    d !! "/ENTRY[entry]/instrument/DETECTOR[detector2]/gain" = None /\
    d !! "/ENTRY[entry]/instrument/DETECTOR[detector1]/gain" = Some (VFloat g1) /\
    d !! "/ENTRY[entry]/instrument/DETECTOR[detector]/gain" = Some (VFloat g0).
Proof.
  intros H31 Hslits H32 Htimes H35 Hgains H43 Hchanges Hs0 Hs1 Hs2.
  unfold read_detectors.
  rewrite (py_getitem_at metadata 31 l31), bind_Ok, Hslits, bind_Ok by done.
  rewrite (py_getitem_at metadata 32 l32), bind_Ok, Htimes, bind_Ok by done.
  rewrite (py_getitem_at metadata 35 l35), bind_Ok, Hgains, bind_Ok by done.
  rewrite (py_getitem_at metadata 43 l43), bind_Ok, Hchanges, bind_Ok by done.
  change ([MIN_WAVELENGTH] ++ (VFloat <$> reverse [a; b]) ++ [MAX_WAVELENGTH])
    with [MIN_WAVELENGTH; VFloat b; VFloat a; MAX_WAVELENGTH].
  set (wr := [MIN_WAVELENGTH; VFloat b; VFloat a; MAX_WAVELENGTH]).
  rewrite (py_getitem_at (s0 :: s1 :: s2 :: slits) 2 s2), bind_Ok by done.
  rewrite (py_getitem_at (t0 :: t1 :: t2 :: times) 2 t2), bind_Ok by done.
  rewrite (py_getitem_at wr 0 MIN_WAVELENGTH), bind_Ok by done.
  rewrite (py_getitem_at wr 1 (VFloat b)), bind_Ok by done.
  destruct (convert_detector_Ok "PMT" s2 t2 None 2 [MIN_WAVELENGTH; VFloat b] Hs2)
    as (d2 & Hd2 & _ & _).
  rewrite Hd2, bind_Ok. cbn [for_each]. unfold read_detector.
  rewrite (py_getitem_at (s0 :: s1 :: s2 :: slits) 1 s1), bind_Ok by done.
  rewrite (py_getitem_at (t0 :: t1 :: t2 :: times) 1 t1), bind_Ok by done.
  rewrite (py_getitem_at (g0 :: g1 :: gains) 1 g1), bind_Ok by done.
  change (2 - 1)%Z with 1%Z. change (3 - 1)%Z with 2%Z.
  rewrite (py_getitem_at wr 1 (VFloat b)), bind_Ok by done.
  rewrite (py_getitem_at wr 2 (VFloat a)), bind_Ok by done.
  destruct (convert_detector_Ok "PbS" s1 t1 (Some g1) 1 [VFloat b; VFloat a] Hs1)
    as (d1 & Hd1 & _ & _).
  rewrite Hd1, !bind_Ok.
  rewrite (py_getitem_at (s0 :: s1 :: s2 :: slits) 0 s0), bind_Ok by done.
  rewrite (py_getitem_at (t0 :: t1 :: t2 :: times) 0 t0), bind_Ok by done.
  rewrite (py_getitem_at (g0 :: g1 :: gains) 0 g0), bind_Ok by done.
  change (2 - 0)%Z with 2%Z. change (3 - 0)%Z with 3%Z.
  rewrite (py_getitem_at wr 2 (VFloat a)), bind_Ok by done.
  rewrite (py_getitem_at wr 3 MAX_WAVELENGTH), bind_Ok by done.
  destruct (convert_detector_Ok "InGaAs" s0 t0 (Some g0) 0
              [VFloat a; MAX_WAVELENGTH] Hs0) as (d0 & Hd0 & _ & _).
  rewrite Hd0, !bind_Ok. eexists. split; [reflexivity|].
  apply convert_detector_range_gain in Hd2 as (Hr2 & Hg2 & Hk2).
  apply convert_detector_range_gain in Hd1 as (Hr1 & Hg1 & Hk1).
  apply convert_detector_range_gain in Hd0 as (Hr0 & Hg0 & Hk0).
  change (detector_path 2) with "/ENTRY[entry]/instrument/DETECTOR[detector2]"
    in Hr2, Hg2.
  change (detector_path 1) with "/ENTRY[entry]/instrument/DETECTOR[detector1]"
    in Hr1, Hg1.
  change (detector_path 0) with "/ENTRY[entry]/instrument/DETECTOR[detector]"
    in Hr0, Hg0.
  repeat split.
  - rewrite (update_lookup_other _ d0 _ _ Hk0) by (intros Hin; not_key Hin).
    rewrite (update_lookup_other _ d1 _ _ Hk1) by (intros Hin; not_key Hin).
    by apply update_lookup_Some.
  - rewrite (update_lookup_other _ d0 _ _ Hk0) by (intros Hin; not_key Hin).
    by apply update_lookup_Some.
  - by apply update_lookup_Some.
  - rewrite (update_lookup_other _ d0 _ _ Hk0) by (intros Hin; not_key Hin).
    rewrite (update_lookup_other _ d1 _ _ Hk1) by (intros Hin; not_key Hin).
    unfold update. by rewrite lookup_union_r.
  - rewrite (update_lookup_other _ d0 _ _ Hk0) by (intros Hin; not_key Hin).
    by apply update_lookup_Some.
  - by apply update_lookup_Some.
Qed.

(** X16: [read_detectors] needs 44 preamble lines: with fewer it raises,
    and with at most 31 what it raises is the [IndexError] for line 31. *)
Theorem read_detectors_short (metadata : list string) :
  ((length metadata < 44)%nat -> exists e, read_detectors metadata = Raise e) /\
  ((length metadata <= 31)%nat -> read_detectors metadata = Raise IndexError).
Proof.
  split.
  - intros Hlen. unfold read_detectors.
    destruct (py_getitem metadata 31) as [l31|e]; [|by eexists]. rewrite bind_Ok.
    destruct (parse_detector_line l31 Ok) as [slits|e]; [|by eexists].
    rewrite bind_Ok.
    destruct (py_getitem metadata 32) as [l32|e]; [|by eexists]. rewrite bind_Ok.
    destruct (parse_detector_line l32 float) as [times|e]; [|by eexists].
    rewrite bind_Ok.
    destruct (py_getitem metadata 35) as [l35|e]; [|by eexists]. rewrite bind_Ok.
    destruct (parse_detector_line l35 float) as [gains|e]; [|by eexists].
    rewrite bind_Ok.
    rewrite (py_getitem_out metadata 43) by lia. by eexists.
  - intros Hlen. unfold read_detectors.
    by rewrite (py_getitem_out metadata 31) by lia.
Qed.

End DetectorMore.

(** ** More on the transmission reader: files *)

Section ReaderMore.
Context `{Foreign} `{!Mpars} `{!System}.

(** X17: [parse_asc] splits the lines of a file at the first line that is
    [#DATA] when stripped: the preamble is the stripped lines before it, the
    data block the lines behind it; without such a line every line goes to
    the preamble and no data is left. *)
Theorem read_metadata_split (before after : list string) (marker : string) :
  Forall (fun line => py_strip line ≠ "#DATA") before ->
  (py_strip marker = "#DATA" ->
     read_metadata (before ++ marker :: after) = (py_strip <$> before, after)) /\
  read_metadata before = (py_strip <$> before, []).
Proof.
  intros Hbefore. split; [intros Hmarker|];
    induction Hbefore as [|line before Hline _ IH]; cbn [read_metadata app].
  - by rewrite decide_True.
  - rewrite decide_False by done. by rewrite IH.
  - done.
  - rewrite decide_False by done. by rewrite IH.
Qed.

Lemma read_files_raised_iff sorted_paths (template : Template) out :
  raised (read_files sorted_paths template out) = None <->
  forall p, p ∈ sorted_paths -> ~ skipped p -> exists d, parsed p d.
Proof.
  revert template out.
  induction sorted_paths as [|p ps IH]; intros template out.
  { split; [by intros _ p ?%elem_of_nil | done]. }
  destruct (decide (skipped p)) as [Hs|Hs].
  - rewrite read_files_skip by done. rewrite IH. split.
    + intros Hps q [->|Hq]%elem_of_cons; [done | by apply Hps].
    + intros Hps q Hq. apply Hps. by right.
  - rewrite read_files_parse by done.
    destruct (default _ _ p) as [lines [d|e]] eqn:Hp.
    + rewrite IH. split.
      * intros Hps q [->|Hq]%elem_of_cons; [|by apply Hps].
        intros _. exists d. split; [done | by exists lines].
      * intros Hps q Hq. apply Hps. by right.
    + split; [done|]. intros Hps.
      destruct (Hps p) as (d & _ & lines' & Hd); [by left | done |].
      rewrite Hp in Hd. by injection Hd.
Qed.

Lemma read_files_raised_Some sorted_paths (template : Template) out e :
  raised (read_files sorted_paths template out) = Some e ->
  exists p lines, p ∈ sorted_paths /\ ~ skipped p /\
    default (fun _ => ([], Ok ∅)) (extensions !! (splitext p).2) p
    = (lines, Raise e).
Proof.
  revert template out.
  induction sorted_paths as [|p ps IH]; intros template out; [done|].
  destruct (decide (skipped p)) as [Hs|Hs].
  - rewrite read_files_skip by done.
    intros (q & lines & Hq & Hrest)%IH. exists q, lines. split; [by right | done].
  - rewrite read_files_parse by done.
    destruct (default _ _ p) as [lines [d|e']] eqn:Hp.
    + intros (q & lines' & Hq & Hrest)%IH. exists q, lines'.
      split; [by right | done].
    + intros [= ->]. exists p, lines. split; [by left | done].
Qed.

(** X18: [read] returns exactly when the parser of every file that is not
    skipped returns a dictionary; otherwise it ends with the exception of
    the parser of one of these files: it catches nothing. *)
Theorem read_returns_iff (template : Template) (file_paths : list string) :
  (raised (read template file_paths) = None <->
     forall p, p ∈ file_paths -> ~ skipped p -> exists d, parsed p d) /\
  (forall e, raised (read template file_paths) = Some e ->
     exists p lines, p ∈ file_paths /\ ~ skipped p /\
       default (fun _ => ([], Ok ∅)) (extensions !! (splitext p).2) p
       = (lines, Raise e)).
Proof.
  unfold read. split.
  - rewrite read_files_raised_iff. by setoid_rewrite sorted_elem_of.
  - intros e (p & lines & Hp & Hrest)%read_files_raised_Some.
    exists p, lines. split; [by apply sorted_elem_of in Hp | done].
Qed.

(** What the files add does not depend on the template they are added to. *)
Lemma read_files_union sorted_paths :
  exists added : Template, forall (template : Template) out,
    raised (read_files sorted_paths template out) = None ->
    tmpl (read_files sorted_paths template out) = added ∪ template.
Proof.
  induction sorted_paths as [|p ps [added IH]].
  { exists ∅. intros template out _. cbn. by rewrite (left_id_L ∅ (∪)). }
  destruct (decide (skipped p)) as [Hs|Hs].
  - exists added. intros template out. rewrite read_files_skip by done. apply IH.
  - destruct (default (fun _ => ([], Ok ∅)) (extensions !! (splitext p).2) p)
      as [lines [d|e]] eqn:Hp.
    + exists (added ∪ d). intros template out. rewrite read_files_parse by done.
      rewrite Hp. intros Hr. rewrite (IH _ _ Hr). unfold update.
      by rewrite (assoc_L (∪)).
    + exists ∅. intros template out. rewrite read_files_parse by done.
      by rewrite Hp.
Qed.

Lemma set_fixed_keys_ext (t t' : Template) k :
  t !! k = t' !! k -> set_fixed_keys t !! k = set_fixed_keys t' !! k.
Proof.
  intros Hk. unfold set_fixed_keys. rewrite !lookup_insert.
  by repeat case_decide.
Qed.

Lemma set_fixed_keys_twice (t : Template) k :
  set_fixed_keys (set_fixed_keys t) !! k = set_fixed_keys t !! k.
Proof.
  unfold set_fixed_keys. rewrite !lookup_insert. by repeat case_decide.
Qed.

(** X19: reading the same files a second time into the template a read
    returned gives that template again. *)
Theorem read_twice (template : Template) (file_paths : list string) :
  raised (read template file_paths) = None ->
  let again := read (tmpl (read template file_paths)) file_paths in
  raised again = None /\ tmpl again = tmpl (read template file_paths).
Proof.
  intros Hr again. unfold again, read in *.
  assert (raised (read_files (sorted file_paths (fun f => (splitext f).2))
            (set_fixed_keys (tmpl (read_files
               (sorted file_paths (fun f => (splitext f).2))
               (set_fixed_keys template) []))) []) = None) as Hr'.
  { apply read_files_raised_iff.
    exact (proj1 (read_files_raised_iff _ _ _) Hr). }
  split; [done|].
  destruct (read_files_union (sorted file_paths (fun f => (splitext f).2)))
    as [added Hadded].
  rewrite (Hadded _ _ Hr'), (Hadded _ _ Hr). apply map_eq. intros k.
  destruct (added !! k) as [v|] eqn:Hk.
  - by rewrite !(lookup_union_Some_l _ _ _ v).
  - rewrite !lookup_union_r by done.
    rewrite <- (set_fixed_keys_twice template k). apply set_fixed_keys_ext.
    by rewrite lookup_union_r.
Qed.

(** X20: of two files with different extensions that are both read, the
    one with the greater extension is read last and wins every key both
    write, in whichever order the two are given ([.asc] before [.json]
    before [.yaml] before [.yml]). *)
Theorem read_extension_order (template : Template) p1 p2 d1 d2 :
  String.ltb (splitext p1).2 (splitext p2).2 = true ->
  parsed p1 d1 -> parsed p2 d2 ->
  tmpl (read template [p1; p2]) = d2 ∪ (d1 ∪ set_fixed_keys template) /\
  read template [p2; p1] = read template [p1; p2].
Proof.
  intros Hlt [Hs1 [lines1 Hd1]] [Hs2 [lines2 Hd2]].
  assert (String.ltb (splitext p2).2 (splitext p1).2 = false) as Hgt.
  { by apply (key_lt_le (fun f => (splitext f).2)). }
  assert (sorted [p1; p2] (fun f => (splitext f).2) = [p1; p2]) as Hs12.
  { unfold sorted. cbn. by rewrite Hgt. }
  assert (sorted [p2; p1] (fun f => (splitext f).2) = [p1; p2]) as Hs21.
  { unfold sorted. cbn. by rewrite Hlt. }
  unfold read. rewrite Hs12, Hs21. split; [|done].
  rewrite read_files_parse, Hd1 by done.
  by rewrite read_files_parse, Hd2 by done.
Qed.

Lemma extension_order :
  String.ltb ".asc" ".json" = true /\ String.ltb ".json" ".yaml" = true /\
  String.ltb ".yaml" ".yml" = true.
Proof. done. Qed.

End ReaderMore.

(** ** More on the transmission reader: what [parse_asc] returns *)

Ltac bind_step H :=
  cbv beta iota zeta in H;
  match type of H with
  | (?r ≫= _) = Ok _ =>
    let x := fresh "x" in let Hx := fresh "Hx" in
    destruct r as [x|] eqn:Hx; [rewrite bind_Ok in H | discriminate H]
  end.

Section ParseMore.
Context `{Foreign} `{!Mpars} `{!System}.

Lemma eval_rules_quiet metadata map (template : Template) out :
  Forall (fun item : string * Rule => forall ty v, item.2 ≠ ROther ty v) map ->
  (eval_rules metadata map template out).1 = out.
Proof.
  intros Hall. revert template out.
  induction Hall as [|[path val] map Hval _ IH]; intros template out; [done|].
  cbn [eval_rules]. destruct val as [i|s|f|ty v]; cbn [eval_rule].
  - destruct (py_getitem metadata i); [rewrite bind_Ok; apply IH | done].
  - apply IH.
  - destruct (f metadata); [rewrite bind_Ok; apply IH | done].
  - by destruct (Hval ty v).
Qed.

(** X21: [parse_asc] never prints: no entry of [METADATA_MAP] is of a type
    its loop warns about. *)
Theorem parse_asc_quiet (file_path : string) : (parse_asc file_path).1 = [].
Proof.
  unfold parse_asc, parse_asc_with.
  destruct (open_lines file_path) as [lines|e]; [|done].
  destruct (read_metadata lines) as [metadata rest].
  destruct (read_csv rest) as [data|e]; [|done].
  pose proof (eval_rules_quiet metadata METADATA_MAP ∅ []) as Hquiet.
  destruct (eval_rules metadata METADATA_MAP ∅ []) as [out r].
  cbn [fst] in *. apply Hquiet. by repeat constructor.
Qed.

Lemma read_detector_keys slits times gains wavelength_ranges
    (template template' : Template) name idx (keys : list string) :
  read_detector slits times gains wavelength_ranges template (name, idx)
    = Ok template' ->
  (forall k, k ∈ keys \/ template !! k = None) ->
  forall k, k ∈ keys ++ detector_keys (detector_path idx) \/ template' !! k = None.
Proof.
  unfold read_detector. intros Hd Hkeys.
  do 6 bind_step Hd. injection Hd as <-.
  match goal with
  | Hc : convert_detector_to_template _ _ _ _ _ _ = Ok _ |- _ =>
    apply convert_detector_range_gain in Hc as (_ & _ & Hc)
  end.
  by apply update_keys.
Qed.

Lemma read_detectors_keys metadata (d : Template) :
  read_detectors metadata = Ok d ->
  forall k, k ∈ all_detector_keys \/ d !! k = None.
Proof.
  unfold read_detectors. intros Hd.
  do 13 bind_step Hd. cbn [for_each] in Hd.
  do 2 bind_step Hd. injection Hd as <-.
  match goal with
  | Hc : convert_detector_to_template _ _ _ _ _ _ = Ok _ |- _ =>
    apply convert_detector_range_gain in Hc as (_ & _ & Hc)
  end.
  unfold all_detector_keys. rewrite app_assoc.
  eapply read_detector_keys; [eassumption|].
  eapply read_detector_keys; [eassumption|].
  by apply (update_keys ∅ _ [] _ (fun k => or_intror (lookup_empty k))).
Qed.

Lemma data_to_template_inv (data : DataFrame) (d : Template) :
  data_to_template data = Ok d ->
  (forall k, k ∈ data_keys \/ d !! k = None) /\
  Forall (fun k => is_Some (d !! k)) data_keys.
Proof.
  intros Hd.
  destruct (values_col0 data) as [col|e] eqn:Hcol;
    [|by unfold data_to_template in Hd; rewrite Hcol in Hd].
  destruct (data_to_template_Ok data col Hcol) as (d' & Hd' & _ & _ & Hkeys).
  rewrite Hd in Hd'. injection Hd' as <-. split; [done|].
  unfold data_to_template in Hd. rewrite Hcol, bind_Ok in Hd. injection Hd as <-.
  unfold data_keys. repeat constructor; by simplify_map_eq.
Qed.

Lemma rule_yields_is_Some metadata (before after : Template) out item :
  (forall ty v, item.2 ≠ ROther ty v) ->
  rule_yields metadata before after out item -> is_Some (after !! item.1).
Proof.
  destruct item as [path [i|s|f|ty v]]; cbn; intros Hval.
  - by intros (line & _ & ->).
  - by intros ->.
  - by intros (v & _ & ->).
  - by destruct (Hval ty v).
Qed.

(** X22: the dictionary [parse_asc] returns has the ten paths of
    [METADATA_MAP] and the eight paths of the data block, and besides these
    only keys of the three detectors. *)
Theorem parse_asc_keys (file_path : string) out (d : Template) :
  parse_asc file_path = (out, Ok d) ->
  (forall k, is_Some (d !! k) ->
     k ∈ METADATA_MAP.*1 ++ all_detector_keys ++ data_keys) /\
  Forall (fun k => is_Some (d !! k)) (METADATA_MAP.*1 ++ data_keys).
Proof.
  unfold parse_asc, parse_asc_with.
  destruct (open_lines file_path) as [lines|e]; [|done].
  destruct (read_metadata lines) as [metadata rest].
  destruct (read_csv rest) as [data|e]; [|done].
  destruct (eval_rules metadata METADATA_MAP ∅ []) as [out' [rt|e]] eqn:Hrules;
    [|done].
  intros [= -> Hd].
  destruct (read_detectors metadata) as [dd|e] eqn:Hdd; [|done].
  rewrite bind_Ok in Hd.
  destruct (data_to_template data) as [dt|e] eqn:Hdt; [|done].
  rewrite bind_Ok in Hd. injection Hd as <-.
  apply eval_rules_Ok in Hrules as (_ & Hkeep & _ & Hyields);
    [|apply METADATA_MAP_NoDup].
  pose proof (read_detectors_keys _ _ Hdd) as Hdk.
  apply data_to_template_inv in Hdt as [Hdata Hdata_in].
  assert (Forall (fun item : string * Rule => forall ty v, item.2 ≠ ROther ty v)
            METADATA_MAP) as Hno by by repeat constructor.
  split.
  - intros k Hk. rewrite app_assoc.
    destruct (update_keys (update rt dd) dt
                (METADATA_MAP.*1 ++ all_detector_keys) data_keys) with (k := k)
      as [?|Hnone]; [|done|done|].
    + apply update_keys; [|done]. intros k'.
      destruct (decide (k' ∈ METADATA_MAP.*1)); [by left|right].
      by rewrite Hkeep.
    + rewrite Hnone in Hk. by destruct Hk.
  - apply Forall_app. split.
    + apply Forall_fmap, Forall_forall. intros item Hitem.
      rewrite Forall_forall in Hyields, Hno. cbn.
      do 2 (apply update_is_Some; left).
      eapply rule_yields_is_Some; [by apply Hno | by apply Hyields].
    + eapply Forall_impl; [exact Hdata_in|]. intros k Hk.
      apply update_is_Some. by right.
Qed.

End ParseMore.

(** ** The further properties on concrete inputs *)

Section MoreExamples.
Existing Instance example_foreign.
Existing Instance example_mpars.
Existing Instance nxdl_helpers.

Lemma get_names_of_all_readers_plain_witness :
  get_names_of_all_readers "/"
    ["/opt/dataconverter/readers/transmission/reader.py";
     "readers/example/reader.py"]
  = Ok ["transmission"; "example"].
Proof.
  apply (get_names_of_all_readers_plain
           [("/opt/dataconverter/", "transmission"); ("", "example")]).
  repeat constructor; by vm_compute.
Defined.

Lemma get_names_of_all_readers_suffix_witness :
  get_names_of_all_readers "/" ["/opt/readers/myreaders/reader.py"] = Ok [""].
Proof.
  apply (get_names_of_all_readers_suffix "/opt/" "my"). by vm_compute.
Defined.

Lemma re_search_nxdl_name_sound_witness :
  re_search_nxdl_name "defs/NXmx_a.nxdl.xml" = Some "NXmx_a" /\
  exists pre m post,
    "defs/NXmx_a.nxdl.xml" = pre +:+ "NX" +:+ m +:+ post /\
    "NXmx_a" = "NX" +:+ m /\ name_chars m = true /\ lookahead post = true.
Proof.
  assert (re_search_nxdl_name "defs/NXmx_a.nxdl.xml" = Some "NXmx_a") as Hname
    by reflexivity.
  split; [exact Hname|].
  exact (re_search_nxdl_name_sound _ _ Hname).
Defined.

Lemma re_search_nxdl_name_standard_witness :
  re_search_nxdl_name "definitions/NXtransmission.nxdl.xml"
  = Some "NXtransmission".
Proof.
  apply (re_search_nxdl_name_standard "definitions/" "transmission");
    by vm_compute.
Defined.

Lemma convert_generate_template_witness :
  (@convert _ nxdl_helpers (example_collaborators example_texts ∅)
     ["missing.asc"] "no_such_reader" "NXmx.nxdl.xml" "output.nxs" true).2
  = Ok ().
Proof.
  apply (@convert_generate_template _ nxdl_helpers
           (example_collaborators example_texts ∅)
           ["missing.asc"] "no_such_reader" "NXmx.nxdl.xml" "output.nxs"
           example_nxdl).
  reflexivity.
Defined.

Lemma convert_no_name_witness :
  (@convert _ nxdl_helpers (example_collaborators example_texts ∅)
     ["data.asc"] "transmission" "schema.xml" "output.nxs" false).2
  = Raise AttributeError.
Proof.
  apply (@convert_no_name _ nxdl_helpers (example_collaborators example_texts ∅)
           ["data.asc"] "transmission" "schema.xml" "output.nxs" example_nxdl
           (@READER _ example_mpars (example_system example_texts ∅)));
    reflexivity.
Defined.

Lemma convert_writes_validated_witness :
  let col := example_collaborators example_texts ∅ in
  let run := @convert _ nxdl_helpers col ["data.asc"] "transmission"
               "NXtransmission.nxdl.xml" "output.nxs" false in
  EWrite "NXtransmission.nxdl.xml" "output.nxs" ∈ run.1 /\
  exists nxdl_root data_reader,
    @ET_parse _ col "NXtransmission.nxdl.xml" = Ok nxdl_root /\
    @get_reader _ col "transmission" = Ok data_reader.
Proof.
  intros col run.
  assert (EWrite "NXtransmission.nxdl.xml" "output.nxs" ∈ run.1) as Hw.
  { vm_compute. in_list. }
  split; [exact Hw|].
  destruct (@convert_writes_validated _ nxdl_helpers col ["data.asc"]
              "transmission" "NXtransmission.nxdl.xml" "output.nxs" false
              "NXtransmission.nxdl.xml" "output.nxs" Hw)
    as (_ & _ & _ & nxdl_root & data_reader & Hparse & Hreader & _).
  by exists nxdl_root, data_reader.
Defined.


Lemma generate_template_from_nxdl_below_witness :
  exists rest, "/ENTRY[entry]/definition" = "" +:+ "/" +:+ rest.
Proof.
  apply (generate_template_from_nxdl_below example_nxdl ∅ None).
  - apply elem_of_dom. exists VNone. by vm_compute.
  - rewrite dom_empty_L. apply not_elem_of_empty.
Defined.

Lemma convert_detector_to_template_raises_witness :
  @convert_detector_to_template _ (example_system example_texts ∅)
    "PMT" "wide" (Qmake 2 10) None 2 [] = Raise ValueError.
Proof.
  apply (@convert_detector_to_template_raises _ (example_system example_texts ∅)).
  split; [done | reflexivity].
Defined.

Lemma convert_detector_to_template_entries_witness :
  exists d : Template,
    @convert_detector_to_template _ (example_system example_texts ∅)
      "PMT" "servo" (Qmake 2 10) None 2 [] = Ok d /\
    d !! "/ENTRY[entry]/instrument/DETECTOR[detector2]/gain" = None /\
    d !! "/ENTRY[entry]/instrument/DETECTOR[detector2]/slit/x_gap" = None.
Proof.
  destruct (@convert_detector_to_template _ (example_system example_texts ∅)
              "PMT" "servo" (Qmake 2 10) None 2 []) as [d|e] eqn:Hd;
    [|by vm_compute in Hd].
  exists d. split; [done|].
  destruct (@convert_detector_to_template_entries _
              (example_system example_texts ∅) _ _ _ _ _ _ d Hd)
    as (_ & _ & _ & Hgain & Hservo & _).
  destruct (Hservo eq_refl) as (_ & Hgap & _).
  split; [exact Hgain | exact Hgap].
Defined.

Lemma read_detectors_ranges_witness :
  exists d : Template,
    @read_detectors _ example_mpars (example_system example_texts ∅)
      example_metadata = Ok d /\
    d !! "/ENTRY[entry]/instrument/DETECTOR[detector1]/wavelength_range"
      = Some (VList [VFloat (Qmake 8608 10); VFloat (Qmake 16804 10)]).
Proof.
  destruct (@read_detectors_ranges _ example_mpars
              (example_system example_texts ∅) example_metadata
              "3350/servo 1680/servo 860.8/2.00" "3350/0.2 1680/0.2 860.8/0.2"
              "3350/5.00 1680/2.50" "1680.4 860.8"
              "servo" "servo" "2.00" []
              (Qmake 2 10) (Qmake 2 10) (Qmake 2 10) []
              (Qmake 500 100) (Qmake 250 100) []
              (Qmake 16804 10) (Qmake 8608 10))
    as (d & Hd & _ & Hpbs & _);
    try (by vm_compute); try (by left); [right; by eexists|].
  by exists d.
Defined.

Lemma read_detectors_short_witness :
  @read_detectors _ example_mpars (example_system example_texts ∅)
    ["PE UV"; "-1"] = Raise IndexError.
Proof.
  apply (@read_detectors_short _ example_mpars (example_system example_texts ∅)).
  simpl. lia.
Defined.

Lemma read_metadata_split_witness :
  read_metadata ["sample 1 "; " #DATA "; "800.0 12.5"]
  = (["sample 1"], ["800.0 12.5"]).
Proof.
  apply (read_metadata_split ["sample 1 "] ["800.0 12.5"] " #DATA ");
    [by repeat constructor | reflexivity].
Defined.

Lemma read_returns_iff_witness :
  raised (@read _ example_mpars (example_system example_texts ∅) ∅
            ["notes.csv"]) = None.
Proof.
  apply (@read_returns_iff _ example_mpars (example_system example_texts ∅)).
  intros p ->%list_elem_of_singleton Hskip. destruct Hskip.
  left. apply (bool_decide_unpack _). by vm_compute.
Defined.

Lemma read_twice_witness :
  let sys := example_system ∅ conflicting_jsons in
  tmpl (@read _ example_mpars sys
          (tmpl (@read _ example_mpars sys ∅ ["a.json"])) ["a.json"])
  = tmpl (@read _ example_mpars sys ∅ ["a.json"]).
Proof.
  intros sys.
  apply (@read_twice _ example_mpars sys ∅ ["a.json"]). by vm_compute.
Defined.

Lemma read_extension_order_witness :
  let sys := example_system example_texts conflicting_jsons in
  @read _ example_mpars sys ∅ ["a.json"; "data.asc"]
  = @read _ example_mpars sys ∅ ["data.asc"; "a.json"].
Proof.
  intros sys.
  destruct (@parse_asc _ example_mpars sys "data.asc") as [lines [d1|e]] eqn:Hasc;
    [|by vm_compute in Hasc].
  apply (@read_extension_order _ example_mpars sys ∅ "data.asc" "a.json" d1
           {[ "/ENTRY[entry]/title" := VStr "a" ]}).
  - reflexivity.
  - split; [|by exists lines].
    intros [Hext|Hex]; [|by vm_compute in Hex].
    apply Hext, (bool_decide_unpack _). by vm_compute.
  - split; [|by exists []].
    intros [Hext|Hex]; [|by vm_compute in Hex].
    apply Hext, (bool_decide_unpack _). by vm_compute.
Defined.

Lemma parse_asc_keys_witness :
  exists out (d : Template),
    @parse_asc _ example_mpars (example_system example_texts ∅) "data.asc"
      = (out, Ok d) /\
    Forall (fun k => is_Some (d !! k)) (METADATA_MAP.*1 ++ data_keys).
Proof.
  destruct (@parse_asc _ example_mpars (example_system example_texts ∅) "data.asc")
    as [out [d|e]] eqn:Hasc; [|by vm_compute in Hasc].
  exists out, d. split; [done|].
  by apply (@parse_asc_keys _ example_mpars (example_system example_texts ∅)
              "data.asc" out d Hasc).
Defined.

Lemma parse_detector_line_plain_witness :
  parse_detector_line "3350/servo 1680/servo 860.8/2.00" Ok
  = Ok ["servo"; "servo"; "2.00"].
Proof.
  destruct (parse_detector_line_plain "3350/servo 1680/servo 860.8/2.00")
    as (settings & -> & -> & _).
  reflexivity.
Defined.

End MoreExamples.
